(** * Multi-user rotation of database credentials: the declared infrastructure

    A shallow embedding of the three source files

      - [src/lib/vpc-stack.ts]       the Network Topology Unit ([VpcStack]),
      - [src/lib/database-stack.ts]  the Data Cluster Unit ([DatabaseStack]),
      - [src/bin/database.ts]        the Composition Entry Point ([main]).

    The program is a sequence of construct instantiations.  Every
    [new X(scope, id, props)] registers a child named [id] under [scope] and
    fails when that name is taken; a few constructs are mutated after their
    creation ([addIngressRule], [Tags.of(..).add]).  Scopes are therefore
    modelled as ordered stores from construct ids to declarations, threaded
    through an error-and-state monad, and references between constructs are
    the ids (handles) of the store.

    The constructs themselves come from the provisioning SDK, which is not
    part of the repository.  The modules [ec2], [logs], [rds],
    [secretsmanager] and [iam], named after the SDK's namespaces the source
    imports, hold the property records the source fills in and a model of
    what the SDK does with them where a statement below depends on it: the
    layout of a network's subnets, the selection of subnets by type, and the
    meaning of a password generation policy.  The three units themselves,
    [VpcStack.constructor], [DatabaseStack.constructor] and [program], follow
    the source statement by statement. *)

From Stdlib Require Import ZArith String Ascii List Bool Lia.
From stdpp Require Import base decidable numbers option list strings pretty.

Local Open Scope string_scope.
Local Open Scope list_scope.

(** ** Failures

    Everything here fails at configuration-build time, by an exception that
    aborts the whole run. *)

Inductive Error : Type :=
| ConstructNameTaken (id : string)
| NoSuchConstruct (id : string)
| NotASecurityGroup (id : string)
| InvalidIp (ip : string)
| InvalidCidrRange (mask : Z)
| ExceedsRemainingSpace (mask : Z)
| PrivateSubnetsWithoutNatGateways
| NatGatewaysWithoutPublicSubnets
| NoSubnetGroups
| NoDefaultPort (id : string)
| MasterSecretRequired
| NoSuchFile (path : string).

Inductive Result (A : Type) : Type :=
| Ok (a : A)
| Throw (e : Error).

Arguments Ok {A} a.
Arguments Throw {A} e.

(** ** Strings, as the SDK's address arithmetic reads them *)

Module Str.

(** [s.split(sep)] for a one-character separator. *)
Fixpoint split (sep : ascii) (s : string) : list string :=
  match s with
  | EmptyString => [EmptyString]
  | String c rest =>
      if Ascii.eqb c sep then EmptyString :: split sep rest
      else match split sep rest with
           | hd :: tl => String c hd :: tl
           | [] => [String c EmptyString]
           end
  end.

Definition digit (c : ascii) : option Z :=
  let n := Z.of_nat (nat_of_ascii c) in
  if ((48 <=? n) && (n <=? 57))%Z then Some (n - 48)%Z else None.

Fixpoint digits (acc : Z) (s : string) : Z :=
  match s with
  | EmptyString => acc
  | String c rest =>
      match digit c with
      | Some d => digits (10 * acc + d) rest
      | None => acc
      end
  end.

(** The longest prefix of decimal digits, and no number when the first
    character is not a digit. *)
Definition unsigned (s : string) : option Z :=
  match s with
  | EmptyString => None
  | String c _ => match digit c with
                  | Some _ => Some (digits 0 s)
                  | None => None
                  end
  end.

Definition isSpace (c : ascii) : bool :=
  let n := nat_of_ascii c in
  (n =? 32)%nat || ((9 <=? n)%nat && (n <=? 13)%nat).

Fixpoint trimStart (s : string) : string :=
  match s with
  | EmptyString => EmptyString
  | String c rest => if isSpace c then trimStart rest else s
  end.

(** [parseInt(s, 10)]: leading blanks are skipped, a sign is read, then the
    longest prefix of decimal digits; no number ([NaN]) without a digit. *)
Definition parseInt (s : string) : option Z :=
  match trimStart s with
  | String "-" rest => option_map Z.opp (unsigned rest)
  | String "+" rest => unsigned rest
  | t => unsigned t
  end.

Definition chars (s : string) : list ascii := list_ascii_of_string s.

(** The double quote, and a text between double quotes. *)
Definition dquote : ascii := "034".

Definition quoted (s : string) : string :=
  String dquote (s +:+ String dquote EmptyString).

Definition mem (c : ascii) (s : string) : bool :=
  existsb (Ascii.eqb c) (chars s).

End Str.

(** ** Durations *)

Module Duration.

Inductive TimeUnit : Type := Seconds | Minutes | Hours | Days.

Record t : Type := make { amount : Z; unit : TimeUnit }.

Definition minutes (n : Z) : t := make n Minutes.
Definition days (n : Z) : t := make n Days.

Definition inSeconds (u : TimeUnit) : Z :=
  match u with
  | Seconds => 1
  | Minutes => 60
  | Hours => 3600
  | Days => 86400
  end%Z.

Definition toSeconds (d : t) : Z := (amount d * inSeconds (unit d))%Z.

Definition toDays (d : t) : option Z :=
  let s := toSeconds d in
  if (s mod 86400 =? 0)%Z then Some (s / 86400)%Z else None.

End Duration.


(** ** Sequencing of fallible steps *)

Definition bind {A B} (r : Result A) (k : A -> Result B) : Result B :=
  match r with
  | Ok a => k a
  | Throw e => Throw e
  end.

Notation "'try' x := r 'in' k" :=
  (bind r (fun x => k))
  (at level 10, x name, r at level 100, k at level 200).
Notation "'try' ' p := r 'in' k" :=
  (bind r (fun x => match x with p => k end))
  (at level 10, p pattern, r at level 100, k at level 200).

(** ** The SDK's [aws_ec2] namespace: networks *)

Module ec2.

Inductive SubnetType : Type := PUBLIC | PRIVATE_WITH_NAT | PRIVATE_ISOLATED.

#[global] Instance SubnetType_eq_dec : EqDecision SubnetType.
Proof. solve_decision. Defined.

(** *** Address blocks

    A block keeps the last number of its range and its mask; addresses are
    32-bit numbers held as integers. *)
Module CidrBlock.

Record t : Type := make { networkAddress : Z; mask : Z }.

Definition calculateNetsize (mask : Z) : Z := 2 ^ (32 - mask).

Definition networkSize (b : t) : Z := calculateNetsize (mask b).

Definition validIp (ipAddress : string) : bool :=
  let octets := map Str.parseInt (Str.split "." ipAddress) in
  (length octets =? 4)%nat &&
  forallb (fun o => match o with
                    | Some n => (0 <=? n)%Z && (n <=? 255)%Z
                    | None => false
                    end) octets.

Definition ipToNum (ipAddress : string) : Result Z :=
  if validIp ipAddress then
    Ok (fold_left (fun p c => (256 * p + default 0 (Str.parseInt c))%Z)
                  (Str.split "." ipAddress) 0%Z)
  else Throw (InvalidIp ipAddress).

(** [new CidrBlock(ip, mask)] from a number. *)
Definition ofNumber (ipAddress : Z) (mask : Z) : t :=
  make (ipAddress + calculateNetsize mask - 1) mask.

Definition minAddress (b : t) : Z :=
  networkAddress b - networkAddress b mod networkSize b.

Definition maxAddress (b : t) : Z := minAddress b + networkSize b - 1.

Definition nextBlock (b : t) : t := ofNumber (maxAddress b + 1) (mask b).

Definition numToIp (n : Z) : string :=
  pretty (n / 16777216)%Z +:+ "." +:+ pretty (n / 65536 mod 256)%Z +:+ "."
  +:+ pretty (n / 256 mod 256)%Z +:+ "." +:+ pretty (n mod 256)%Z.

(** The block's [cidr] attribute. *)
Definition cidr (b : t) : string := numToIp (minAddress b) +:+ "/" +:+ pretty (mask b).

(** A number that prints as four octets. *)
Definition validAddress (n : Z) : bool := ((0 <=? n) && (n <? 4294967296))%Z.

(** The constructor prints the block's first address for its [cidr]
    attribute, and throws when that is no address. *)
Definition checked (b : t) : Result t :=
  if validAddress (minAddress b) then Ok b
  else Throw (InvalidIp (numToIp (minAddress b))).

(** The address and the mask a range in the textual form is written with. *)
Definition parse (cidr : string) : Result (Z * Z) :=
  match Str.split "/" cidr with
  | ip :: m :: _ =>
      match Str.parseInt m with
      | Some mask => try n := ipToNum ip in Ok (n, mask)
      | None => Throw (InvalidIp cidr)
      end
  | _ => Throw (InvalidIp cidr)
  end.

(** [new CidrBlock("a.b.c.d/m")] from the textual form. *)
Definition ofString (cidr : string) : Result t :=
  try ' (n, mask) := parse cidr in checked (ofNumber n mask).

(** [b] lies inside [parent]. *)
Definition within (parent b : t) : Prop :=
  (minAddress parent <= minAddress b /\ maxAddress b <= maxAddress parent)%Z.

(** No address belongs to both blocks. *)
Definition disjoint (a b : t) : Prop :=
  (maxAddress a < minAddress b \/ maxAddress b < minAddress a)%Z.

End CidrBlock.

#[global] Instance CidrBlock_eq_dec : EqDecision CidrBlock.t.
Proof. solve_decision. Defined.

(** *** The allocator of subnet blocks inside the network's block *)
Module NetworkBuilder.

Record t : Type := make {
  networkCidr : CidrBlock.t;
  subnetCidrs : list CidrBlock.t;
  nextAvailableIp : Z
}.

Definition create (cidr : string) : Result t :=
  try b := CidrBlock.ofString cidr in
  Ok (make b [] (CidrBlock.minAddress b)).

(** Modelled from the spec: the SDK's allocator of subnet blocks, which is
    not under src/.  Section 4.1: the request fails if the subnet math
    overflows the parent address block.  [addSubnet(mask)] hands out the next
    aligned block of that mask after the blocks handed out so far, and fails
    when the mask is outside 16..28, when the block would pass the end of the
    network, or when the block after it would start past the last address
    there is. *)
Definition addSubnet (mask : Z) (nb : t) : Result (CidrBlock.t * t) :=
  if ((mask <? 16) || (28 <? mask))%Z then Throw (InvalidCidrRange mask)
  else
    let maxIp := (nextAvailableIp nb + CidrBlock.calculateNetsize mask)%Z in
    if (CidrBlock.maxAddress (networkCidr nb) <? maxIp - 1)%Z
    then Throw (ExceedsRemainingSpace mask)
    else
      try subnet := CidrBlock.checked (CidrBlock.ofNumber (nextAvailableIp nb) mask) in
      try next := CidrBlock.checked (CidrBlock.nextBlock subnet) in
      Ok (subnet,
          make (networkCidr nb) (subnetCidrs nb ++ [subnet])
               (CidrBlock.minAddress next)).

End NetworkBuilder.

Module SubnetConfiguration.

(** The source gives every tier an explicit [cidrMask]. *)
Record t : Type := make {
  name : string;
  subnetType : SubnetType;
  cidrMask : Z
}.

End SubnetConfiguration.

Module Subnet.

(** A subnet of the network: its construct id inside the network, its zone,
    its block, and the tier it was declared in (the SDK tags every subnet
    with its tier's name and type). *)
Record t : Type := make {
  id : string;
  availabilityZone : string;
  ipv4CidrBlock : CidrBlock.t;
  groupName : string;
  subnetType : SubnetType
}.

End Subnet.

#[global] Instance Subnet_eq_dec : EqDecision Subnet.t.
Proof. solve_decision. Defined.

Module Vpc.

Record Props : Type := mkProps {
  cidr : string;
  enableDnsHostnames : bool;
  enableDnsSupport : bool;
  natGateways : nat;
  maxAzs : nat;
  subnetConfiguration : list SubnetConfiguration.t
}.

(** The network handle: what [IVpc] exposes to the code that receives it. *)
Record t : Type := make {
  vpcId : string;
  availabilityZones : list string;
  publicSubnets : list Subnet.t;
  privateSubnets : list Subnet.t;
  isolatedSubnets : list Subnet.t
}.

(** The state of the constructor while it lays the subnets out. *)
Record Layout : Type := mkLayout {
  networkBuilder : NetworkBuilder.t;
  publics : list Subnet.t;
  privates : list Subnet.t;
  isolateds : list Subnet.t
}.

(** [subnetId(name, i)] *)
Definition subnetId (name : string) (i : nat) : string :=
  name +:+ "Subnet" +:+ pretty (S i).

Definition push (s : Subnet.t) (nb : NetworkBuilder.t) (l : Layout) : Layout :=
  match Subnet.subnetType s with
  | PUBLIC => mkLayout nb (publics l ++ [s]) (privates l) (isolateds l)
  | PRIVATE_WITH_NAT => mkLayout nb (publics l) (privates l ++ [s]) (isolateds l)
  | PRIVATE_ISOLATED => mkLayout nb (publics l) (privates l) (isolateds l ++ [s])
  end.

(** One tier: a subnet in every zone, in the zones' order. *)
Fixpoint createSubnetResources (cfg : SubnetConfiguration.t)
    (zones : list string) (index : nat) (l : Layout) : Result Layout :=
  match zones with
  | [] => Ok l
  | zone :: rest =>
      try ' (block, nb) :=
        NetworkBuilder.addSubnet (SubnetConfiguration.cidrMask cfg) (networkBuilder l) in
      let s := Subnet.make (subnetId (SubnetConfiguration.name cfg) index) zone block
                 (SubnetConfiguration.name cfg) (SubnetConfiguration.subnetType cfg) in
      createSubnetResources cfg rest (S index) (push s nb l)
  end.

(** All tiers, in the order of [subnetConfiguration]. *)
Fixpoint createSubnets (cfgs : list SubnetConfiguration.t)
    (zones : list string) (l : Layout) : Result Layout :=
  match cfgs with
  | [] => Ok l
  | cfg :: rest =>
      try l' := createSubnetResources cfg zones 0 l in
      createSubnets rest zones l'
  end.

(** The number of outbound gateways for the zones in use: outbound-only
    tiers need at least one gateway, and gateways need a public tier. *)
Definition determineNatGatewayCount (requestedCount : nat)
    (subnetConfig : list SubnetConfiguration.t) (azCount : nat) : Result nat :=
  let hasPrivateSubnets :=
    existsb (fun c => bool_decide (SubnetConfiguration.subnetType c = PRIVATE_WITH_NAT))
            subnetConfig in
  let hasPublicSubnets :=
    existsb (fun c => bool_decide (SubnetConfiguration.subnetType c = PUBLIC))
            subnetConfig in
  let count := Nat.min requestedCount azCount in
  if (count =? 0)%nat && hasPrivateSubnets then Throw PrivateSubnetsWithoutNatGateways
  else if (0 <? count)%nat && negb hasPublicSubnets then Throw NatGatewaysWithoutPublicSubnets
  else Ok count.

(** Modelled from the spec: the SDK's network construct, which is not under
    src/.  Section 4.1: a network space with the configured subnet tiers
    replicated across up to the requested number of zones.
    [new ec2.Vpc(scope, id, props)] in a stack whose environment offers the
    zones [stackZones] uses the first [maxAzs] of them, refuses a
    configuration whose outbound-only tiers would be left without a gateway,
    and gives every tier one subnet per zone, tier after tier. *)
Definition create (id : string) (props : Props) (stackZones : list string) : Result t :=
  let zones := firstn (maxAzs props) stackZones in
  try nb := NetworkBuilder.create (cidr props) in
  try _count := determineNatGatewayCount (natGateways props) (subnetConfiguration props)
                  (length zones) in
  try l := createSubnets (subnetConfiguration props) zones (mkLayout nb [] [] []) in
  Ok (make id zones (publics l) (privates l) (isolateds l)).

Definition subnets (v : t) : list Subnet.t :=
  publicSubnets v ++ privateSubnets v ++ isolatedSubnets v.

End Vpc.

#[global] Instance Vpc_eq_dec : EqDecision Vpc.t.
Proof. solve_decision. Defined.

Module SubnetSelection.

Record t : Type := make {
  subnetType : option SubnetType;
  onePerAz : option bool
}.

End SubnetSelection.

Definition selectSubnetObjectsByType (vpc : Vpc.t) (ty : SubnetType)
  : Result (list Subnet.t) :=
  let subnets := match ty with
                 | PRIVATE_ISOLATED => Vpc.isolatedSubnets vpc
                 | PRIVATE_WITH_NAT => Vpc.privateSubnets vpc
                 | PUBLIC => Vpc.publicSubnets vpc
                 end in
  match subnets with
  | [] => Throw NoSubnetGroups
  | _ => Ok subnets
  end.

(** Keeps the first subnet of every zone. *)
Fixpoint retainOnePerAz (azsSeen : list string) (subnets : list Subnet.t)
  : list Subnet.t :=
  match subnets with
  | [] => []
  | s :: rest =>
      if existsb (String.eqb (Subnet.availabilityZone s)) azsSeen
      then retainOnePerAz azsSeen rest
      else s :: retainOnePerAz (Subnet.availabilityZone s :: azsSeen) rest
  end.

(** Modelled from the spec: the SDK's subnet selection, which is not under
    src/.  Section 4.2: a subnet group selects one subnet per zone from the
    fully-isolated tier; rotation jobs and the administrative node take the
    outbound-only tier.  [vpc.selectSubnets(selection).subnets] is the
    network's list for the requested type, cut down to the first subnet of
    every zone under [onePerAz]; it fails when the network has no subnet of
    that type. *)
Definition selectSubnets (vpc : Vpc.t) (selection : SubnetSelection.t)
  : Result (list Subnet.t) :=
  let ty := match SubnetSelection.subnetType selection with
            | Some ty => ty
            | None =>
                match Vpc.privateSubnets vpc, Vpc.isolatedSubnets vpc with
                | _ :: _, _ => PRIVATE_WITH_NAT
                | [], _ :: _ => PRIVATE_ISOLATED
                | [], [] => PUBLIC
                end
            end in
  try subnets := selectSubnetObjectsByType vpc ty in
  Ok (if default false (SubnetSelection.onePerAz selection)
      then retainOnePerAz [] subnets
      else subnets).

(** *** Security groups *)

Inductive Protocol : Type := TCP | UDP | ICMP | ALL.

Module Port.

Record t : Type := make {
  protocol : Protocol;
  fromPort : option Z;
  toPort : option Z
}.

Definition tcp (port : Z) : t := make TCP (Some port) (Some port).
Definition allTraffic : t := make ALL None None.

End Port.

Module Peer.

Inductive t : Type :=
| ipv4 (cidrIp : string)
| ipv6 (cidrIpv6 : string)
| prefixList (prefixListId : string)
| securityGroupId (securityGroupId : string).



End Peer.

Module SecurityGroup.

Record Props : Type := mkProps {
  vpc : string;
  securityGroupName : string;
  description : string;
  allowAllOutbound : bool
}.

Record IngressRule : Type := mkRule {
  peer : Peer.t;
  connection : Port.t;
  ruleDescription : string
}.

(** A security group: its properties and the inbound rules added to it
    since its creation. *)
Record t : Type := make {
  props : Props;
  ingressRules : list IngressRule
}.

Definition create (props : Props) : t := make props [].

End SecurityGroup.

#[global] Instance Protocol_eq_dec : EqDecision Protocol.
Proof. solve_decision. Defined.

#[global] Instance Port_eq_dec : EqDecision Port.t.
Proof. solve_decision. Defined.

#[global] Instance Peer_eq_dec : EqDecision Peer.t.
Proof. solve_decision. Defined.

#[global] Instance SecurityGroupProps_eq_dec : EqDecision SecurityGroup.Props.
Proof. solve_decision. Defined.

#[global] Instance IngressRule_eq_dec : EqDecision SecurityGroup.IngressRule.
Proof. solve_decision. Defined.

#[global] Instance SecurityGroup_eq_dec : EqDecision SecurityGroup.t.
Proof. solve_decision. Defined.

(** [sg.addIngressRule(peer, connection, description)] for a peer that is
    an address range, a prefix list or a group id: the rule is appended to
    the group's own rules unless the group already has a rule with that
    peer and that connection, whatever its description. *)
Definition addIngressRule (peer : Peer.t) (connection : Port.t)
    (description : string) (sg : SecurityGroup.t) : SecurityGroup.t :=
  let rule := SecurityGroup.mkRule peer connection description in
  if existsb (fun r => bool_decide (SecurityGroup.peer r = peer)
                       && bool_decide (SecurityGroup.connection r = connection))
             (SecurityGroup.ingressRules sg)
  then sg
  else SecurityGroup.make (SecurityGroup.props sg)
         (SecurityGroup.ingressRules sg ++ [rule]).

(** *** Inbound rules between connectable constructs

    When one construct is allowed to reach another on its default port,
    the rule is not written into the target's group: it is a declaration
    of its own under that group, naming the group, the source group and the
    port.  The default port of a database cluster is the port of its
    endpoint, known at deployment only. *)

Module PortValue.

Inductive t : Type :=
| literal (port : Z)
| endpointPort (cluster : string).

Definition toString (p : t) : string :=
  match p with
  | literal port => pretty port
  | endpointPort _ => "{IndirectPort}"
  end.

End PortValue.

Module SecurityGroupIngress.

Record t : Type := make {
  groupId : string;
  sourceSecurityGroupId : string;
  ipProtocol : Protocol;
  fromPort : PortValue.t;
  toPort : PortValue.t
}.

(** The id of the declaration under its group; the source group stands in
    it by its construct id. *)
Definition ruleId (source : string) (port : PortValue.t) : string :=
  "from " +:+ source +:+ ":" +:+ PortValue.toString port.

End SecurityGroupIngress.

#[global] Instance PortValue_eq_dec : EqDecision PortValue.t.
Proof. solve_decision. Defined.

#[global] Instance SecurityGroupIngress_eq_dec : EqDecision SecurityGroupIngress.t.
Proof. solve_decision. Defined.

(** *** Compute instances *)

Module InstanceType.

Definition BURSTABLE3 : string := "t3".
Definition MEDIUM : string := "medium".

(** [InstanceType.of(class, size)] and [new InstanceType(identifier)] both
    hold the identifier. *)
Definition of_ (instanceClass instanceSize : string) : string :=
  instanceClass +:+ "." +:+ instanceSize.

End InstanceType.

Inductive AmazonLinuxGeneration : Type :=
| AMAZON_LINUX
| AMAZON_LINUX_2
| AMAZON_LINUX_2022.

Module MachineImage.

Inductive t : Type := latestAmazonLinux (generation : AmazonLinuxGeneration).

End MachineImage.

Inductive EbsDeviceVolumeType : Type := STANDARD | IO1 | IO2 | GP2 | GP3 | ST1 | SC1.

Module BlockDeviceVolume.

Record t : Type := ebs {
  volumeSize : Z;
  encrypted : bool;
  volumeType : EbsDeviceVolumeType
}.

End BlockDeviceVolume.

Module BlockDevice.

Record t : Type := make {
  deviceName : string;
  volume : BlockDeviceVolume.t
}.

End BlockDevice.

Module UserData.

Record t : Type := make {
  shebang : string;
  lines : list string
}.

Definition forLinux (shebang : string) : t := make shebang [].

Definition addCommands (command : string) (u : t) : t :=
  make (shebang u) (lines u ++ [command]).

End UserData.

Module Instance.

Record Props : Type := mkProps {
  instanceType : string;
  machineImage : MachineImage.t;
  vpc : string;
  blockDevices : list BlockDevice.t;
  role : string;
  securityGroup : string;
  vpcSubnets : list Subnet.t;
  userData : UserData.t
}.

End Instance.

#[global] Instance AmazonLinuxGeneration_eq_dec : EqDecision AmazonLinuxGeneration.
Proof. solve_decision. Defined.

#[global] Instance MachineImage_eq_dec : EqDecision MachineImage.t.
Proof. solve_decision. Defined.

#[global] Instance EbsDeviceVolumeType_eq_dec : EqDecision EbsDeviceVolumeType.
Proof. solve_decision. Defined.

#[global] Instance BlockDeviceVolume_eq_dec : EqDecision BlockDeviceVolume.t.
Proof. solve_decision. Defined.

#[global] Instance BlockDevice_eq_dec : EqDecision BlockDevice.t.
Proof. solve_decision. Defined.

#[global] Instance UserData_eq_dec : EqDecision UserData.t.
Proof. solve_decision. Defined.

#[global] Instance Instance_eq_dec : EqDecision Instance.Props.
Proof. solve_decision. Defined.

End ec2.

(** ** The SDK's [aws_logs] namespace *)

Module logs.

Module RetentionDays.

Definition ONE_YEAR : Z := 365.

End RetentionDays.

End logs.

(** ** The SDK's [aws_secretsmanager] namespace *)

Module secretsmanager.

(** *** Generation policies *)
Module SecretStringGenerator.

(** The fields of a generation policy; a field the source leaves out is
    [None] and takes the secret store's default. *)
Record t : Type := make {
  excludeCharacters : option string;
  excludeLowercase : option bool;
  excludeNumbers : option bool;
  excludePunctuation : option bool;
  excludeUppercase : option bool;
  generateStringKey : option string;
  includeSpace : option bool;
  passwordLength : option nat;
  requireEachIncludedType : option bool;
  secretStringTemplate : option string
}.

Inductive CharClass : Type := Lowercase | Uppercase | Numbers | Punctuation | Space.

Definition between (lo hi : nat) (c : ascii) : bool :=
  let n := nat_of_ascii c in (lo <=? n)%nat && (n <=? hi)%nat.

(** The class of a character the secret store draws passwords from:
    [a-z], [A-Z], [0-9], the 32 punctuation marks of ASCII, and the space. *)
Definition classOf (c : ascii) : option CharClass :=
  if between 97 122 c then Some Lowercase
  else if between 65 90 c then Some Uppercase
  else if between 48 57 c then Some Numbers
  else if between 33 47 c || between 58 64 c || between 91 96 c || between 123 126 c
       then Some Punctuation
  else if between 32 32 c then Some Space
  else None.

Definition CharClass_eqb (a b : CharClass) : bool :=
  match a, b with
  | Lowercase, Lowercase | Uppercase, Uppercase | Numbers, Numbers
  | Punctuation, Punctuation | Space, Space => true
  | _, _ => false
  end.

Definition inClass (cl : CharClass) (c : ascii) : bool :=
  match classOf c with
  | Some cl' => CharClass_eqb cl cl'
  | None => false
  end.

(** The classes a policy draws from. *)
Definition included (g : t) (cl : CharClass) : bool :=
  match cl with
  | Lowercase => negb (default false (excludeLowercase g))
  | Uppercase => negb (default false (excludeUppercase g))
  | Numbers => negb (default false (excludeNumbers g))
  | Punctuation => negb (default false (excludePunctuation g))
  | Space => default false (includeSpace g)
  end.

(** The characters a policy may emit. *)
Definition allowed (g : t) (c : ascii) : bool :=
  match classOf c with
  | Some cl => included g cl && negb (Str.mem c (default "" (excludeCharacters g)))
  | None => false
  end.

(** The classes a policy demands at least one character of. *)
Definition required (g : t) : list CharClass :=
  if default true (requireEachIncludedType g)
  then filter (fun cl => included g cl = true) [Lowercase; Uppercase; Numbers; Punctuation]
  else [].

(** Modelled from the spec: the secret store's password generator, which is
    not under src/.  Sections 3 and 8: a generation policy fixes the length,
    the excluded characters and the required character classes of a
    generated value.  [admits g v]: the secret store may return [v] as the
    random password of a secret declared with policy [g]. *)
Definition admits (g : t) (v : string) : bool :=
  (String.length v =? default 32%nat (passwordLength g))%nat
  && forallb (allowed g) (Str.chars v)
  && forallb (fun cl => existsb (inClass cl) (Str.chars v)) (required g).

End SecretStringGenerator.

Module Secret.

Record Props : Type := mkProps {
  secretName : string;
  generateSecretString : option SecretStringGenerator.t;
  (** [SecretStringValueBeta1.fromUnsafePlaintext(..)] *)
  secretStringBeta1 : option string
}.

End Secret.

Inductive SecretRotationApplication : Type :=
| MYSQL_ROTATION_SINGLE_USER
| MYSQL_ROTATION_MULTI_USER
| POSTGRES_ROTATION_SINGLE_USER
| POSTGRES_ROTATION_MULTI_USER.

Definition isMultiUser (a : SecretRotationApplication) : bool :=
  match a with
  | MYSQL_ROTATION_MULTI_USER | POSTGRES_ROTATION_MULTI_USER => true
  | MYSQL_ROTATION_SINGLE_USER | POSTGRES_ROTATION_SINGLE_USER => false
  end.

Module SecretRotation.

Record Props : Type := mkProps {
  application : SecretRotationApplication;
  secret : string;
  target : string;
  vpc : string;
  automaticallyAfter : option Duration.t;
  excludeCharacters : option string;
  masterSecret : option string;
  securityGroup : option string;
  vpcSubnets : option (list ec2.Subnet.t)
}.

(** The check the construct makes on its properties before it declares
    anything: the multi-user scheme needs a master secret. *)
Definition validate (props : Props) : Result Props :=
  if isMultiUser (application props) && negb (bool_decide (is_Some (masterSecret props)))
  then Throw MasterSecretRequired
  else Ok props.

End SecretRotation.

#[global] Instance SecretStringGenerator_eq_dec : EqDecision SecretStringGenerator.t.
Proof. solve_decision. Defined.

#[global] Instance Secret_eq_dec : EqDecision Secret.Props.
Proof. solve_decision. Defined.

#[global] Instance SecretRotationApplication_eq_dec : EqDecision SecretRotationApplication.
Proof. solve_decision. Defined.

#[global] Instance TimeUnit_eq_dec : EqDecision Duration.TimeUnit.
Proof. solve_decision. Defined.

#[global] Instance Duration_eq_dec : EqDecision Duration.t.
Proof. solve_decision. Defined.

#[global] Instance SecretRotation_eq_dec : EqDecision SecretRotation.Props.
Proof. solve_decision. Defined.

End secretsmanager.

(** ** The SDK's [aws_rds] namespace *)

Module rds.

Module AuroraPostgresEngineVersion.

Record t : Type := make {
  auroraPostgresFullVersion : string;
  auroraPostgresMajorVersion : string
}.

Definition VER_13_4 : t := make "13.4" "13".

End AuroraPostgresEngineVersion.

Module DatabaseClusterEngine.

Record t : Type := make {
  engineType : string;
  engineVersion : AuroraPostgresEngineVersion.t
}.

Definition auroraPostgres (version : AuroraPostgresEngineVersion.t) : t :=
  make "aurora-postgresql" version.

End DatabaseClusterEngine.

Module ParameterGroup.

Record Props : Type := mkProps {
  engine : DatabaseClusterEngine.t;
  description : string;
  parameters : option (list (string * string))
}.

End ParameterGroup.

Module SubnetGroup.

Record Props : Type := mkProps {
  description : string;
  vpc : string;
  subnetGroupName : string;
  vpcSubnets : list ec2.Subnet.t
}.

End SubnetGroup.

Module PerformanceInsightRetention.

Definition DEFAULT : Z := 7.

End PerformanceInsightRetention.

Module Credentials.

Inductive t : Type := fromSecret (secret : string).

End Credentials.

Module InstanceProps.

Record t : Type := make {
  vpc : string;
  allowMajorVersionUpgrade : bool;
  autoMinorVersionUpgrade : bool;
  deleteAutomatedBackups : bool;
  enablePerformanceInsights : bool;
  instanceType : string;
  parameterGroup : string;
  performanceInsightRetention : Z;
  publiclyAccessible : bool;
  securityGroups : list string
}.

End InstanceProps.

Module BackupProps.

Record t : Type := make {
  retention : Duration.t;
  preferredWindow : string
}.

End BackupProps.

Module DatabaseCluster.

Record Props : Type := mkProps {
  engine : DatabaseClusterEngine.t;
  instanceProps : InstanceProps.t;
  backup : BackupProps.t;
  cloudwatchLogsExports : list string;
  cloudwatchLogsRetention : Z;
  clusterIdentifier : string;
  copyTagsToSnapshot : bool;
  credentials : Credentials.t;
  defaultDatabaseName : string;
  deletionProtection : bool;
  iamAuthentication : bool;
  instanceIdentifierBase : string;
  instances : nat;
  monitoringInterval : Duration.t;
  parameterGroup : string;
  preferredMaintenanceWindow : string;
  storageEncrypted : bool;
  subnetGroup : string
}.

End DatabaseCluster.

#[global] Instance AuroraPostgresEngineVersion_eq_dec : EqDecision AuroraPostgresEngineVersion.t.
Proof. solve_decision. Defined.

#[global] Instance DatabaseClusterEngine_eq_dec : EqDecision DatabaseClusterEngine.t.
Proof. solve_decision. Defined.

#[global] Instance ParameterGroup_eq_dec : EqDecision ParameterGroup.Props.
Proof. solve_decision. Defined.

#[global] Instance SubnetGroup_eq_dec : EqDecision SubnetGroup.Props.
Proof. solve_decision. Defined.

#[global] Instance Credentials_eq_dec : EqDecision Credentials.t.
Proof. solve_decision. Defined.

#[global] Instance InstanceProps_eq_dec : EqDecision InstanceProps.t.
Proof. solve_decision. Defined.

#[global] Instance BackupProps_eq_dec : EqDecision BackupProps.t.
Proof. solve_decision. Defined.

#[global] Instance DatabaseCluster_eq_dec : EqDecision DatabaseCluster.Props.
Proof. solve_decision. Defined.

End rds.

(** ** The SDK's [aws_iam] namespace *)

Module iam.

Inductive Effect : Type := ALLOW | DENY.

Module PolicyStatement.

Record t : Type := make {
  effect : Effect;
  resources : list string;
  actions : list string
}.

End PolicyStatement.

Module ManagedPolicy.

Record Props : Type := mkProps {
  statements : list PolicyStatement.t
}.

(** A managed policy attached to a role: one of the provider's, by name, or
    one declared in this scope, by its construct id. *)
Inductive Ref : Type :=
| fromAwsManagedPolicyName (managedPolicyName : string)
| declared (id : string).

End ManagedPolicy.

Module ServicePrincipal.

Inductive t : Type := make (service : string).

End ServicePrincipal.

Module Role.

Record Props : Type := mkProps {
  assumedBy : ServicePrincipal.t;
  managedPolicies : list ManagedPolicy.Ref
}.

End Role.

#[global] Instance Effect_eq_dec : EqDecision Effect.
Proof. solve_decision. Defined.

#[global] Instance PolicyStatement_eq_dec : EqDecision PolicyStatement.t.
Proof. solve_decision. Defined.

#[global] Instance ManagedPolicy_eq_dec : EqDecision ManagedPolicy.Props.
Proof. solve_decision. Defined.

#[global] Instance ManagedPolicyRef_eq_dec : EqDecision ManagedPolicy.Ref.
Proof. solve_decision. Defined.

#[global] Instance ServicePrincipal_eq_dec : EqDecision ServicePrincipal.t.
Proof. solve_decision. Defined.

#[global] Instance Role_eq_dec : EqDecision Role.Props.
Proof. solve_decision. Defined.

End iam.

(** ** Construct scopes

    A scope holds its children in the order of their creation.  A child's
    id is its handle: the constructor returns it, later code refers to the
    child by it, and a mutation of the child is an update of the store. *)

Module Construct.

Definition Scope (N : Type) : Type := list (string * N).

Fixpoint tryFindChild {N} (id : string) (sc : Scope N) : option N :=
  match sc with
  | [] => None
  | (k, n) :: rest => if String.eqb k id then Some n else tryFindChild id rest
  end.

Fixpoint replaceChild {N} (id : string) (n' : N) (sc : Scope N) : Scope N :=
  match sc with
  | [] => []
  | (k, n) :: rest =>
      if String.eqb k id then (k, n') :: rest else (k, n) :: replaceChild id n' rest
  end.

(** A computation inside a scope: it may add or change children, and it
    may throw. *)
Definition M (N A : Type) : Type := Scope N -> Result (A * Scope N).

Definition ret {N A} (a : A) : M N A := fun sc => Ok (a, sc).

Definition andThen {N A B} (m : M N A) (k : A -> M N B) : M N B :=
  fun sc => match m sc with
            | Ok (a, sc') => k a sc'
            | Throw e => Throw e
            end.

Definition lift {N A} (r : Result A) : M N A :=
  fun sc => match r with
            | Ok a => Ok (a, sc)
            | Throw e => Throw e
            end.

(** [new C(scope, id, ..)]: the name must be free in the scope. *)
Definition addChild {N} (id : string) (n : N) : M N string :=
  fun sc => match tryFindChild id sc with
            | Some _ => Throw (ConstructNameTaken id)
            | None => Ok (id, sc ++ [(id, n)])
            end.

(** A method call that mutates the child [id]. *)
Definition modify {N} (id : string) (f : N -> Result N) : M N unit :=
  fun sc => match tryFindChild id sc with
            | None => Throw (NoSuchConstruct id)
            | Some n => try n' := f n in Ok (tt, replaceChild id n' sc)
            end.

End Construct.

Notation "'do' x <- m ; k" :=
  (Construct.andThen m (fun x => k))
  (at level 10, x name, m at level 100, k at level 200).
Notation "'call' m ; k" :=
  (Construct.andThen m (fun _ => k))
  (at level 10, m at level 100, k at level 200).

(** ** Declarations a stack can hold *)

Inductive Resource : Type :=
| Vpc (props : ec2.Vpc.Props) (vpc : ec2.Vpc.t)
| SecurityGroup (sg : ec2.SecurityGroup.t)
| Secret (props : secretsmanager.Secret.Props)
| ParameterGroup (props : rds.ParameterGroup.Props)
| SubnetGroup (props : rds.SubnetGroup.Props)
| DatabaseCluster (props : rds.DatabaseCluster.Props)
| SecretRotation (props : secretsmanager.SecretRotation.Props)
| ManagedPolicy (props : iam.ManagedPolicy.Props)
| Role (props : iam.Role.Props)
| Instance (props : ec2.Instance.Props)
| SecurityGroupIngress (rule : ec2.SecurityGroupIngress.t).

#[global] Instance SubnetConfiguration_eq_dec : EqDecision ec2.SubnetConfiguration.t.
Proof. solve_decision. Defined.

#[global] Instance VpcProps_eq_dec : EqDecision ec2.Vpc.Props.
Proof. solve_decision. Defined.

#[global] Instance Resource_eq_dec : EqDecision Resource.
Proof. solve_decision. Defined.

Module Stack.

(** [StackProps], as far as the entry point sets it. *)
Record Props : Type := mkProps {
  terminationProtection : option bool
}.

Record t : Type := make {
  props : Props;
  tags : list (string * string);
  children : Construct.Scope Resource
}.

(** [new Stack(scope, id, props)] followed by the body of the subclass's
    constructor, which fills the stack's own scope. *)
Definition create {A} (id : string) (props : Props) (body : Construct.M Resource A)
  : Construct.M t A :=
  fun app =>
    match Construct.tryFindChild id app with
    | Some _ => Throw (ConstructNameTaken id)
    | None =>
        try ' (a, children) := body [] in
        Ok (a, app ++ [(id, make props [] children)])
    end.

End Stack.

#[global] Instance StackProps_eq_dec : EqDecision Stack.Props.
Proof. solve_decision. Defined.

#[global] Instance Stack_eq_dec : EqDecision Stack.t.
Proof. solve_decision. Defined.

Module Tags.

Definition setTag (key value : string) (tags : list (string * string))
  : list (string * string) :=
  filter (fun kv => fst kv <> key) tags ++ [(key, value)].

(** [cdk.Tags.of(stack).add(key, value)] *)
Definition add (stack key value : string) : Construct.M Stack.t unit :=
  Construct.modify stack (fun st =>
    Ok (Stack.make (Stack.props st) (setTag key value (Stack.tags st))
          (Stack.children st))).

End Tags.

(** ** What a run reads from its surroundings

    The zones the deployment environment offers to a stack, and the files
    the run can read. *)

Record Env : Type := mkEnv {
  availabilityZones : list string;
  files : string -> option string
}.

Module fs.

Definition readFileSync (env : Env) (path : string) : Result string :=
  match files env path with
  | Some text => Ok text
  | None => Throw (NoSuchFile path)
  end.

End fs.

(** ** Network Topology Unit: [src/lib/vpc-stack.ts] *)

Module VpcStack.

(** What the rest of the program reads from the unit: its id and the
    network handle [vpc]. *)
Record t : Type := make {
  id : string;
  vpc : ec2.Vpc.t
}.

Definition vpcProps : ec2.Vpc.Props :=
  {| ec2.Vpc.cidr := "10.10.0.0/24";
     ec2.Vpc.enableDnsHostnames := true;
     ec2.Vpc.enableDnsSupport := true;
     ec2.Vpc.natGateways := 1;
     ec2.Vpc.maxAzs := 2;
     ec2.Vpc.subnetConfiguration :=
       [ {| ec2.SubnetConfiguration.name := "Public";
            ec2.SubnetConfiguration.subnetType := ec2.PUBLIC;
            ec2.SubnetConfiguration.cidrMask := 28 |};
         {| ec2.SubnetConfiguration.name := "Private";
            ec2.SubnetConfiguration.subnetType := ec2.PRIVATE_WITH_NAT;
            ec2.SubnetConfiguration.cidrMask := 28 |};
         {| ec2.SubnetConfiguration.name := "Isolate";
            ec2.SubnetConfiguration.subnetType := ec2.PRIVATE_ISOLATED;
            ec2.SubnetConfiguration.cidrMask := 28 |} ] |}.

(** The body of the constructor, in the stack's own scope. *)
Definition constructor (env : Env) : Construct.M Resource ec2.Vpc.t :=
  do vpc <- Construct.lift (ec2.Vpc.create "Vpc" vpcProps (availabilityZones env));
  do _h <- Construct.addChild "Vpc" (Vpc vpcProps vpc);
  Construct.ret vpc.

(** [new VpcStack(scope, id, props)] *)
Definition create (env : Env) (id : string) (props : Stack.Props)
  : Construct.M Stack.t t :=
  do vpc <- Stack.create id props (constructor env);
  Construct.ret (make id vpc).

End VpcStack.

(** ** Data Cluster Unit: [src/lib/database-stack.ts] *)

Module DatabaseStack.

Record Props : Type := mkProps {
  vpc : ec2.Vpc.t;
  terminationProtection : option bool
}.

(** Characters to exclude in passwords set for the database. *)
Definition EXCLUDE_CHARACTERS : string :=
  ":@/" +:+ String Str.dquote " '".

(** Handles stand for the attributes the source reads off a construct. *)
Definition securityGroupId (sg : string) : string := sg.
Definition secretArn (secret : string) : string := secret.

Definition addIngressRule (sg : string) (peer : ec2.Peer.t)
    (connection : ec2.Port.t) (description : string) : Construct.M Resource unit :=
  Construct.modify sg (fun r =>
    match r with
    | SecurityGroup g => Ok (SecurityGroup (ec2.addIngressRule peer connection description g))
    | _ => Throw (NotASecurityGroup sg)
    end).

(** [target.connections]: the security groups of a connectable construct
    and its default port.  Of the constructs of this unit the cluster is the
    connectable one with a default port. *)
Definition connectionsOf (target : string)
  : Construct.M Resource (list string * ec2.PortValue.t) :=
  fun sc =>
    match Construct.tryFindChild target sc with
    | Some (DatabaseCluster p) =>
        Ok ((rds.InstanceProps.securityGroups (rds.DatabaseCluster.instanceProps p),
             ec2.PortValue.endpointPort target), sc)
    | Some _ => Throw (NoDefaultPort target)
    | None => Throw (NoSuchConstruct target)
    end.

(** The inbound rule from the group [source] on [port], declared under the
    group [group] unless a declaration of that id is there already. *)
Definition addConnectionRule (source : string) (port : ec2.PortValue.t)
    (group : string) : Construct.M Resource unit :=
  let id := group +:+ "/" +:+ ec2.SecurityGroupIngress.ruleId source port in
  fun sc =>
    match Construct.tryFindChild id sc with
    | Some _ => Ok (tt, sc)
    | None =>
        Ok (tt, sc ++ [(id, SecurityGroupIngress
                              {| ec2.SecurityGroupIngress.groupId := group;
                                 ec2.SecurityGroupIngress.sourceSecurityGroupId := source;
                                 ec2.SecurityGroupIngress.ipProtocol := ec2.TCP;
                                 ec2.SecurityGroupIngress.fromPort := port;
                                 ec2.SecurityGroupIngress.toPort := port |})])
    end.

Fixpoint forEach {A} (f : A -> Construct.M Resource unit) (l : list A)
  : Construct.M Resource unit :=
  match l with
  | [] => Construct.ret tt
  | x :: rest => call f x; forEach f rest
  end.

(** [connections.allowDefaultPortFrom(source)] *)
Definition allowDefaultPortFrom (connections : list string * ec2.PortValue.t)
    (source : string) : Construct.M Resource unit :=
  forEach (addConnectionRule source (snd connections)) (fst connections).

(** [new secretsmanager.SecretRotation(scope, id, props)]: the construct
    registers itself, checks that its target has a default port and that
    the multi-user scheme has its master secret, takes the security group
    it is given (it would make one of its own otherwise: the source always
    gives one), and opens the target's default port to that group. *)
Definition newSecretRotation (id : string)
    (props : secretsmanager.SecretRotation.Props) : Construct.M Resource string :=
  do self <- Construct.addChild id (SecretRotation props);
  do connections <- connectionsOf (secretsmanager.SecretRotation.target props);
  do _checked <- Construct.lift (secretsmanager.SecretRotation.validate props);
  do securityGroup <-
    match secretsmanager.SecretRotation.securityGroup props with
    | Some sg => Construct.ret sg
    | None =>
        Construct.addChild (id +:+ "/SecurityGroup")
          (SecurityGroup (ec2.SecurityGroup.create
             {| ec2.SecurityGroup.vpc := secretsmanager.SecretRotation.vpc props;
                ec2.SecurityGroup.securityGroupName := "";
                ec2.SecurityGroup.description := id +:+ "/SecurityGroup";
                ec2.SecurityGroup.allowAllOutbound := true |}))
    end;
  call allowDefaultPortFrom connections securityGroup;
  Construct.ret self.

Definition adminGenerator : secretsmanager.SecretStringGenerator.t :=
  {| secretsmanager.SecretStringGenerator.excludeCharacters := Some EXCLUDE_CHARACTERS;
     secretsmanager.SecretStringGenerator.excludeLowercase := None;
     secretsmanager.SecretStringGenerator.excludeNumbers := None;
     secretsmanager.SecretStringGenerator.excludePunctuation := None;
     secretsmanager.SecretStringGenerator.excludeUppercase := None;
     secretsmanager.SecretStringGenerator.generateStringKey := Some "password";
     secretsmanager.SecretStringGenerator.includeSpace := None;
     secretsmanager.SecretStringGenerator.passwordLength := Some 32%nat;
     secretsmanager.SecretStringGenerator.requireEachIncludedType := Some true;
     secretsmanager.SecretStringGenerator.secretStringTemplate :=
       Some ("{" +:+ Str.quoted "username" +:+ ": " +:+ Str.quoted "postgresAdmin" +:+ "}") |}.

Definition rotationUserPlaintext : string :=
  "{" +:+ Str.quoted "username" +:+ ": " +:+ Str.quoted "rotationPasswordUser" +:+ ","
  +:+ Str.quoted "password" +:+ ": " +:+ Str.quoted "rotationPasswordUser_password" +:+ "}".

Definition engine : rds.DatabaseClusterEngine.t :=
  rds.DatabaseClusterEngine.auroraPostgres rds.AuroraPostgresEngineVersion.VER_13_4.

(** The body of the constructor, statement by statement. *)
Definition constructor (env : Env) (props : Props) : Construct.M Resource unit :=
  let vpcRef := ec2.Vpc.vpcId (vpc props) in
  (* Security Group for DB Client *)
  do dbClientSg <- Construct.addChild "DbClientSg"
    (SecurityGroup (ec2.SecurityGroup.create
       {| ec2.SecurityGroup.vpc := vpcRef;
          ec2.SecurityGroup.securityGroupName := "prd-db-client-sg";
          ec2.SecurityGroup.description := "";
          ec2.SecurityGroup.allowAllOutbound := true |}));
  (* Security Group for Lambda Functions that rotate secret *)
  do rotateSecretsLambdaFunctionSg <- Construct.addChild "RotateSecretsLambdaFunctionSg"
    (SecurityGroup (ec2.SecurityGroup.create
       {| ec2.SecurityGroup.vpc := vpcRef;
          ec2.SecurityGroup.securityGroupName := "prd-rotate-secrets-lambda-sg";
          ec2.SecurityGroup.description := "";
          ec2.SecurityGroup.allowAllOutbound := true |}));
  (* Security Group for DB *)
  do dbSg <- Construct.addChild "DbSg"
    (SecurityGroup (ec2.SecurityGroup.create
       {| ec2.SecurityGroup.vpc := vpcRef;
          ec2.SecurityGroup.securityGroupName := "prd-db-sg";
          ec2.SecurityGroup.description := "";
          ec2.SecurityGroup.allowAllOutbound := true |}));
  call addIngressRule dbSg
    (ec2.Peer.securityGroupId (securityGroupId rotateSecretsLambdaFunctionSg))
    (ec2.Port.tcp 5432)
    "Allow DB access from Lambda Functions that rotate Secrets";
  call addIngressRule dbSg
    (ec2.Peer.securityGroupId (securityGroupId dbClientSg))
    (ec2.Port.tcp 5432)
    "Allow DB access from DB Client";
  (* DB Admin User Secret *)
  do dbAdminSecret <- Construct.addChild "DbAdminSecret"
    (Secret
       {| secretsmanager.Secret.secretName := "prd-db-cluster/AdminLoginInfo";
          secretsmanager.Secret.generateSecretString := Some adminGenerator;
          secretsmanager.Secret.secretStringBeta1 := None |});
  (* User for password rotation *)
  do dbRotationPasswordUserSecret <- Construct.addChild "DbRotationPasswordUserSecret"
    (Secret
       {| secretsmanager.Secret.secretName := "prd-db-cluster/rotationPasswordUserLoginInfo";
          secretsmanager.Secret.generateSecretString := None;
          secretsmanager.Secret.secretStringBeta1 := Some rotationUserPlaintext |});
  (* DB Cluster Parameter Group *)
  do dbClusterParameterGroup <- Construct.addChild "DbClusterParameterGroup"
    (ParameterGroup
       {| rds.ParameterGroup.engine := engine;
          rds.ParameterGroup.description := "aurora-postgresql13";
          rds.ParameterGroup.parameters :=
            Some [ ("pgaudit.log", "all");
                   ("pgaudit.role", "rds_pgaudit");
                   ("shared_preload_libraries", "pgaudit");
                   ("timezone", "Asia/Tokyo") ] |});
  (* DB Parameter Group *)
  do dbParameterGroup <- Construct.addChild "DbParameterGroup"
    (ParameterGroup
       {| rds.ParameterGroup.engine := engine;
          rds.ParameterGroup.description := "aurora-postgresql13";
          rds.ParameterGroup.parameters := None |});
  (* Subnet Group *)
  do isolated <- Construct.lift (ec2.selectSubnets (vpc props)
       {| ec2.SubnetSelection.subnetType := Some ec2.PRIVATE_ISOLATED;
          ec2.SubnetSelection.onePerAz := Some true |});
  do subnetGroup <- Construct.addChild "SubnetGroup"
    (SubnetGroup
       {| rds.SubnetGroup.description := "description";
          rds.SubnetGroup.vpc := vpcRef;
          rds.SubnetGroup.subnetGroupName := "SubnetGroup";
          rds.SubnetGroup.vpcSubnets := isolated |});
  (* DB Cluster *)
  do dbCluster <- Construct.addChild "DbCluster"
    (DatabaseCluster
       {| rds.DatabaseCluster.engine := engine;
          rds.DatabaseCluster.instanceProps :=
            {| rds.InstanceProps.vpc := vpcRef;
               rds.InstanceProps.allowMajorVersionUpgrade := false;
               rds.InstanceProps.autoMinorVersionUpgrade := true;
               rds.InstanceProps.deleteAutomatedBackups := false;
               rds.InstanceProps.enablePerformanceInsights := true;
               rds.InstanceProps.instanceType :=
                 ec2.InstanceType.of_ ec2.InstanceType.BURSTABLE3 ec2.InstanceType.MEDIUM;
               rds.InstanceProps.parameterGroup := dbParameterGroup;
               rds.InstanceProps.performanceInsightRetention :=
                 rds.PerformanceInsightRetention.DEFAULT;
               rds.InstanceProps.publiclyAccessible := false;
               rds.InstanceProps.securityGroups := [dbSg] |};
          rds.DatabaseCluster.backup :=
            {| rds.BackupProps.retention := Duration.days 7;
               rds.BackupProps.preferredWindow := "16:00-16:30" |};
          rds.DatabaseCluster.cloudwatchLogsExports := ["postgresql"];
          rds.DatabaseCluster.cloudwatchLogsRetention := logs.RetentionDays.ONE_YEAR;
          rds.DatabaseCluster.clusterIdentifier := "prd-db-cluster";
          rds.DatabaseCluster.copyTagsToSnapshot := true;
          rds.DatabaseCluster.credentials := rds.Credentials.fromSecret dbAdminSecret;
          rds.DatabaseCluster.defaultDatabaseName := "testDB";
          rds.DatabaseCluster.deletionProtection := true;
          rds.DatabaseCluster.iamAuthentication := false;
          rds.DatabaseCluster.instanceIdentifierBase := "prd-db-instance";
          rds.DatabaseCluster.instances := 1;
          rds.DatabaseCluster.monitoringInterval := Duration.minutes 1;
          rds.DatabaseCluster.parameterGroup := dbClusterParameterGroup;
          rds.DatabaseCluster.preferredMaintenanceWindow := "Sat:17:00-Sat:17:30";
          rds.DatabaseCluster.storageEncrypted := true;
          rds.DatabaseCluster.subnetGroup := subnetGroup |});
  (* Rotate DB Admin user secret *)
  do natSubnets1 <- Construct.lift (ec2.selectSubnets (vpc props)
       {| ec2.SubnetSelection.subnetType := Some ec2.PRIVATE_WITH_NAT;
          ec2.SubnetSelection.onePerAz := None |});
  do _multi <- newSecretRotation "DbAdminSecretRotationMultiUser"
       {| secretsmanager.SecretRotation.application :=
            secretsmanager.POSTGRES_ROTATION_MULTI_USER;
          secretsmanager.SecretRotation.secret := dbAdminSecret;
          secretsmanager.SecretRotation.target := dbCluster;
          secretsmanager.SecretRotation.vpc := vpcRef;
          secretsmanager.SecretRotation.automaticallyAfter := Some (Duration.days 3);
          secretsmanager.SecretRotation.excludeCharacters := Some EXCLUDE_CHARACTERS;
          secretsmanager.SecretRotation.masterSecret := Some dbRotationPasswordUserSecret;
          secretsmanager.SecretRotation.securityGroup := Some rotateSecretsLambdaFunctionSg;
          secretsmanager.SecretRotation.vpcSubnets := Some natSubnets1 |};
  (* Rotation of the secret of the user for password rotation *)
  do natSubnets2 <- Construct.lift (ec2.selectSubnets (vpc props)
       {| ec2.SubnetSelection.subnetType := Some ec2.PRIVATE_WITH_NAT;
          ec2.SubnetSelection.onePerAz := None |});
  do _single <- newSecretRotation "DbRotationPasswordUserSecretRotationSingleUser"
       {| secretsmanager.SecretRotation.application :=
            secretsmanager.POSTGRES_ROTATION_SINGLE_USER;
          secretsmanager.SecretRotation.secret := dbRotationPasswordUserSecret;
          secretsmanager.SecretRotation.target := dbCluster;
          secretsmanager.SecretRotation.vpc := vpcRef;
          secretsmanager.SecretRotation.automaticallyAfter := Some (Duration.days 3);
          secretsmanager.SecretRotation.excludeCharacters := Some EXCLUDE_CHARACTERS;
          secretsmanager.SecretRotation.masterSecret := None;
          secretsmanager.SecretRotation.securityGroup := Some rotateSecretsLambdaFunctionSg;
          secretsmanager.SecretRotation.vpcSubnets := Some natSubnets2 |};
  (* DB Client IAM role *)
  do getSecretValueIamPolicy <- Construct.addChild "GetSecretValueIamPolicy"
    (ManagedPolicy
       {| iam.ManagedPolicy.statements :=
            [ {| iam.PolicyStatement.effect := iam.ALLOW;
                 iam.PolicyStatement.resources :=
                   [secretArn dbAdminSecret; secretArn dbRotationPasswordUserSecret];
                 iam.PolicyStatement.actions :=
                   ["secretsmanager:GetSecretValue";
                    "secretsmanager:ListSecretVersionIds"] |} ] |});
  do dbClientIamRole <- Construct.addChild "DbClientIamRole"
    (Role
       {| iam.Role.assumedBy := iam.ServicePrincipal.make "ec2.amazonaws.com";
          iam.Role.managedPolicies :=
            [ iam.ManagedPolicy.fromAwsManagedPolicyName "AmazonSSMManagedInstanceCore";
              iam.ManagedPolicy.declared getSecretValueIamPolicy ] |});
  (* User data for Amazon Linux 2 *)
  do userDataParameter <- Construct.lift
       (fs.readFileSync env "./src/ec2/user_data_amazon_linux2.sh");
  let userDataAmazonLinux2 :=
    ec2.UserData.addCommands userDataParameter (ec2.UserData.forLinux "#!/bin/bash") in
  (* DB Client *)
  do natSubnets3 <- Construct.lift (ec2.selectSubnets (vpc props)
       {| ec2.SubnetSelection.subnetType := Some ec2.PRIVATE_WITH_NAT;
          ec2.SubnetSelection.onePerAz := None |});
  do _client <- Construct.addChild "DbClient"
    (Instance
       {| ec2.Instance.instanceType := "t3.micro";
          ec2.Instance.machineImage :=
            ec2.MachineImage.latestAmazonLinux ec2.AMAZON_LINUX_2;
          ec2.Instance.vpc := vpcRef;
          ec2.Instance.blockDevices :=
            [ {| ec2.BlockDevice.deviceName := "/dev/xvda";
                 ec2.BlockDevice.volume :=
                   {| ec2.BlockDeviceVolume.volumeSize := 8;
                      ec2.BlockDeviceVolume.encrypted := true;
                      ec2.BlockDeviceVolume.volumeType := ec2.GP3 |} |} ];
          ec2.Instance.role := dbClientIamRole;
          ec2.Instance.securityGroup := dbClientSg;
          ec2.Instance.vpcSubnets := natSubnets3;
          ec2.Instance.userData := userDataAmazonLinux2 |});
  Construct.ret tt.

(** [new DatabaseStack(scope, id, props)] *)
Definition create (env : Env) (id : string) (props : Props)
  : Construct.M Stack.t string :=
  do _u <- Stack.create id (Stack.mkProps (terminationProtection props))
             (constructor env props);
  Construct.ret id.

End DatabaseStack.

(** ** Composition Entry Point: [src/bin/database.ts] *)

Definition App : Type := Construct.Scope Stack.t.

Definition program (env : Env) : Construct.M Stack.t unit :=
  do vpcStack <- VpcStack.create env "VpcStack"
       {| Stack.terminationProtection := Some true |};
  do databaseStack <- DatabaseStack.create env "DatabaseStack"
       {| DatabaseStack.vpc := VpcStack.vpc vpcStack;
          DatabaseStack.terminationProtection := Some true |};
  call Tags.add (VpcStack.id vpcStack) "Environment" "Production";
  call Tags.add databaseStack "Environment" "Production";
  Construct.ret tt.

(** One run of the entry point: [new cdk.App()] is empty, and the program
    fills it.  [main] ends where the program has built its constructs. *)
Definition main (env : Env) : Result App :=
  try ' (_, app) := program env [] in Ok app.

(** ** Reading a finished run *)

Definition stackOf (app : App) (stack : string) : option Stack.t :=
  Construct.tryFindChild stack app.

Definition resource (app : App) (stack id : string) : option Resource :=
  match stackOf app stack with
  | Some st => Construct.tryFindChild id (Stack.children st)
  | None => None
  end.

(** Every declaration of the run, with the id of its stack. *)
Definition resources (app : App) : list (string * string * Resource) :=
  flat_map (fun '(sid, st) => map (fun '(id, r) => (sid, id, r)) (Stack.children st)) app.

Definition securityGroups (app : App) : list (string * ec2.SecurityGroup.t) :=
  flat_map (fun '(_, id, r) => match r with
                               | SecurityGroup sg => [(id, sg)]
                               | _ => []
                               end) (resources app).

Definition rotations (app : App) : list (string * secretsmanager.SecretRotation.Props) :=
  flat_map (fun '(_, id, r) => match r with
                               | SecretRotation p => [(id, p)]
                               | _ => []
                               end) (resources app).




Definition bootScriptPath : string := "./src/ec2/user_data_amazon_linux2.sh".

(** A deployment environment with three zones and a boot script. *)
Definition sampleEnv : Env :=
  mkEnv ["ap-northeast-1a"; "ap-northeast-1c"; "ap-northeast-1d"]
        (fun path => if String.eqb path bootScriptPath
                     then Some "yum update -y"
                     else None).

Definition sampleApp : App :=
  Eval vm_compute in
    match main sampleEnv with
    | Ok app => app
    | Throw _ => []
    end.

(** ** Tiers of a layout *)

(** Each of the three subnet lists holds subnets of its own tier only. *)
Definition tiered (pub priv iso : list ec2.Subnet.t) : Prop :=
  Forall (fun s => ec2.Subnet.subnetType s = ec2.PUBLIC) pub /\
  Forall (fun s => ec2.Subnet.subnetType s = ec2.PRIVATE_WITH_NAT) priv /\
  Forall (fun s => ec2.Subnet.subnetType s = ec2.PRIVATE_ISOLATED) iso.

Definition Layout_tiered (l : ec2.Vpc.Layout) : Prop :=
  tiered (ec2.Vpc.publics l) (ec2.Vpc.privates l) (ec2.Vpc.isolateds l).

Definition Vpc_tiered (v : ec2.Vpc.t) : Prop :=
  tiered (ec2.Vpc.publicSubnets v) (ec2.Vpc.privateSubnets v) (ec2.Vpc.isolatedSubnets v).

(** The address block of a subnet. *)
Definition block (s : ec2.Subnet.t) : ec2.CidrBlock.t := ec2.Subnet.ipv4CidrBlock s.

(** A password the administrative policy admits. *)
Definition samplePassword : string := "aB3!aB3!aB3!aB3!aB3!aB3!aB3!aB3!".

(** ** References between declarations

    A declaration names other constructs by their handles.  [references]
    lists the handles a declaration holds, each with the kind of construct
    the property it sits in expects. *)

Inductive Kind : Type :=
| KVpc
| KSecurityGroup
| KSecret
| KParameterGroup
| KSubnetGroup
| KDatabaseCluster
| KSecretRotation
| KManagedPolicy
| KRole
| KInstance
| KSecurityGroupIngress.

#[global] Instance Kind_eq_dec : EqDecision Kind.
Proof. solve_decision. Defined.

Definition kindOf (r : Resource) : Kind :=
  match r with
  | Vpc _ _ => KVpc
  | SecurityGroup _ => KSecurityGroup
  | Secret _ => KSecret
  | ParameterGroup _ => KParameterGroup
  | SubnetGroup _ => KSubnetGroup
  | DatabaseCluster _ => KDatabaseCluster
  | SecretRotation _ => KSecretRotation
  | ManagedPolicy _ => KManagedPolicy
  | Role _ => KRole
  | Instance _ => KInstance
  | SecurityGroupIngress _ => KSecurityGroupIngress
  end.

Definition peerReferences (p : ec2.Peer.t) : list (string * Kind) :=
  match p with
  | ec2.Peer.securityGroupId sg => [(sg, KSecurityGroup)]
  | _ => []
  end.

Definition portReferences (p : ec2.PortValue.t) : list (string * Kind) :=
  match p with
  | ec2.PortValue.endpointPort cluster => [(cluster, KDatabaseCluster)]
  | ec2.PortValue.literal _ => []
  end.

Definition policyReferences (m : iam.ManagedPolicy.Ref) : list (string * Kind) :=
  match m with
  | iam.ManagedPolicy.declared id => [(id, KManagedPolicy)]
  | iam.ManagedPolicy.fromAwsManagedPolicyName _ => []
  end.

Definition references (r : Resource) : list (string * Kind) :=
  match r with
  | Vpc _ _ | Secret _ | ParameterGroup _ | SubnetGroup _ => []
  | SecurityGroup sg =>
      flat_map (fun rule => peerReferences (ec2.SecurityGroup.peer rule))
               (ec2.SecurityGroup.ingressRules sg)
  | DatabaseCluster p =>
      let i := rds.DatabaseCluster.instanceProps p in
      (rds.InstanceProps.parameterGroup i, KParameterGroup)
      :: map (fun sg => (sg, KSecurityGroup)) (rds.InstanceProps.securityGroups i)
      ++ [ (match rds.DatabaseCluster.credentials p with
            | rds.Credentials.fromSecret s => s
            end, KSecret);
           (rds.DatabaseCluster.parameterGroup p, KParameterGroup);
           (rds.DatabaseCluster.subnetGroup p, KSubnetGroup) ]
  | SecretRotation p =>
      (secretsmanager.SecretRotation.secret p, KSecret)
      :: (secretsmanager.SecretRotation.target p, KDatabaseCluster)
      :: match secretsmanager.SecretRotation.masterSecret p with
         | Some s => [(s, KSecret)]
         | None => []
         end
      ++ match secretsmanager.SecretRotation.securityGroup p with
         | Some sg => [(sg, KSecurityGroup)]
         | None => []
         end
  | ManagedPolicy p =>
      flat_map (fun st => map (fun s => (s, KSecret)) (iam.PolicyStatement.resources st))
               (iam.ManagedPolicy.statements p)
  | Role p => flat_map policyReferences (iam.Role.managedPolicies p)
  | Instance p =>
      [ (ec2.Instance.role p, KRole); (ec2.Instance.securityGroup p, KSecurityGroup) ]
  | SecurityGroupIngress rule =>
      (ec2.SecurityGroupIngress.groupId rule, KSecurityGroup)
      :: (ec2.SecurityGroupIngress.sourceSecurityGroupId rule, KSecurityGroup)
      :: portReferences (ec2.SecurityGroupIngress.fromPort rule)
      ++ portReferences (ec2.SecurityGroupIngress.toPort rule)
  end.

(** The handle names a construct of the expected kind among [earlier]. *)
Definition resolves (earlier : Construct.Scope Resource) (ref : string * Kind) : bool :=
  match Construct.tryFindChild (fst ref) earlier with
  | Some r => bool_decide (kindOf r = snd ref)
  | None => false
  end.

(** Every declaration of [sc] refers only to constructs declared before
    it, in [earlier] or in [sc] itself. *)
Fixpoint declaredInOrder (earlier sc : Construct.Scope Resource) : bool :=
  match sc with
  | [] => true
  | (id, r) :: rest =>
      forallb (resolves earlier) (references r)
      && declaredInOrder (earlier ++ [(id, r)]) rest
  end.

(** The network a declaration is placed in, and the subnets it is given. *)
Definition vpcRefs (r : Resource) : list string :=
  match r with
  | SecurityGroup sg => [ec2.SecurityGroup.vpc (ec2.SecurityGroup.props sg)]
  | SubnetGroup p => [rds.SubnetGroup.vpc p]
  | DatabaseCluster p => [rds.InstanceProps.vpc (rds.DatabaseCluster.instanceProps p)]
  | SecretRotation p => [secretsmanager.SecretRotation.vpc p]
  | Instance p => [ec2.Instance.vpc p]
  | _ => []
  end.

Definition subnetsUsed (r : Resource) : list ec2.Subnet.t :=
  match r with
  | SubnetGroup p => rds.SubnetGroup.vpcSubnets p
  | SecretRotation p => default [] (secretsmanager.SecretRotation.vpcSubnets p)
  | Instance p => ec2.Instance.vpcSubnets p
  | _ => []
  end.

Definition secrets (app : App) : list (string * secretsmanager.Secret.Props) :=
  flat_map (fun '(_, id, r) => match r with
                               | Secret p => [(id, p)]
                               | _ => []
                               end) (resources app).

(** A deployment environment without the boot script, and one without zones. *)
Definition envWithoutScript : Env :=
  mkEnv ["ap-northeast-1a"; "ap-northeast-1c"] (fun _ => None).

(** ** What the allocator keeps

    The blocks handed out so far lie inside the network's block, end before
    the next free address, and do not overlap. *)

Definition Allocated (nb : ec2.NetworkBuilder.t) : Prop :=
  (ec2.CidrBlock.minAddress (ec2.NetworkBuilder.networkCidr nb)
   <= ec2.NetworkBuilder.nextAvailableIp nb)%Z /\
  Forall (fun b => ec2.CidrBlock.within (ec2.NetworkBuilder.networkCidr nb) b /\
                   (ec2.CidrBlock.maxAddress b < ec2.NetworkBuilder.nextAvailableIp nb)%Z)
         (ec2.NetworkBuilder.subnetCidrs nb) /\
  ForallOrdPairs ec2.CidrBlock.disjoint (ec2.NetworkBuilder.subnetCidrs nb).

Definition layoutSubnets (l : ec2.Vpc.Layout) : list ec2.Subnet.t :=
  ec2.Vpc.publics l ++ ec2.Vpc.privates l ++ ec2.Vpc.isolateds l.

(** The subnet was made from the tier [cfg]. *)
Definition instantiates (cfgs : list ec2.SubnetConfiguration.t) (s : ec2.Subnet.t) : Prop :=
  In (ec2.SubnetConfiguration.make (ec2.Subnet.groupName s) (ec2.Subnet.subnetType s)
        (ec2.CidrBlock.mask (block s))) cfgs.

(** The subnets of a layout carry the allocator's blocks, each one made
    from a configured tier. *)
Definition LayoutSound (cfgs : list ec2.SubnetConfiguration.t) (l : ec2.Vpc.Layout) : Prop :=
  Allocated (ec2.Vpc.networkBuilder l) /\
  Permutation (map block (layoutSubnets l))
              (ec2.NetworkBuilder.subnetCidrs (ec2.Vpc.networkBuilder l)) /\
  Forall (instantiates cfgs) (layoutSubnets l).

(** The subnets of one tier type. *)
Definition tierOf (ty : ec2.SubnetType) (v : ec2.Vpc.t) : list ec2.Subnet.t :=
  match ty with
  | ec2.PUBLIC => ec2.Vpc.publicSubnets v
  | ec2.PRIVATE_WITH_NAT => ec2.Vpc.privateSubnets v
  | ec2.PRIVATE_ISOLATED => ec2.Vpc.isolatedSubnets v
  end.

Definition layoutTier (ty : ec2.SubnetType) (l : ec2.Vpc.Layout) : list ec2.Subnet.t :=
  match ty with
  | ec2.PUBLIC => ec2.Vpc.publics l
  | ec2.PRIVATE_WITH_NAT => ec2.Vpc.privates l
  | ec2.PRIVATE_ISOLATED => ec2.Vpc.isolateds l
  end.

(** The tier a subnet belongs to and the zone it lies in. *)
Definition placement (s : ec2.Subnet.t) : string * string :=
  (ec2.Subnet.groupName s, ec2.Subnet.availabilityZone s).

(** One subnet of the tier [cfg] in each of the zones, if the tier has the
    type [ty]. *)
Definition replicas (ty : ec2.SubnetType) (zones : list string)
    (cfg : ec2.SubnetConfiguration.t) : list (string * string) :=
  if decide (ec2.SubnetConfiguration.subnetType cfg = ty)
  then map (fun zone => (ec2.SubnetConfiguration.name cfg, zone)) zones
  else [].

(** A network with tiers of different sizes, two of them of the same type. *)
Definition mixedProps : ec2.Vpc.Props :=
  {| ec2.Vpc.cidr := "172.16.0.0/22";
     ec2.Vpc.enableDnsHostnames := true;
     ec2.Vpc.enableDnsSupport := true;
     ec2.Vpc.natGateways := 1;
     ec2.Vpc.maxAzs := 2;
     ec2.Vpc.subnetConfiguration :=
       [ ec2.SubnetConfiguration.make "Edge" ec2.PUBLIC 28;
         ec2.SubnetConfiguration.make "App" ec2.PRIVATE_WITH_NAT 25;
         ec2.SubnetConfiguration.make "Data" ec2.PRIVATE_ISOLATED 27;
         ec2.SubnetConfiguration.make "Batch" ec2.PRIVATE_WITH_NAT 26 ] |}.

Definition mixedVpc : ec2.Vpc.t :=
  Eval vm_compute in
    match ec2.Vpc.create "Net" mixedProps ["a"; "b"; "c"] with
    | Ok vpc => vpc
    | Throw _ => ec2.Vpc.make "" [] [] [] []
    end.

(** The Data Cluster Unit run on the network [mixedVpc]. *)
Definition mixedUnitProps : DatabaseStack.Props :=
  {| DatabaseStack.vpc := mixedVpc; DatabaseStack.terminationProtection := None |}.

Definition mixedUnitScope : Construct.Scope Resource :=
  Eval vm_compute in
    match DatabaseStack.constructor sampleEnv mixedUnitProps [] with
    | Ok (_, sc) => sc
    | Throw _ => []
    end.

(** * Theorems *)

(** ** The network's layout keeps the tiers apart *)

Section Layout.

Import ec2.

Lemma push_tiered s nb l :
  Layout_tiered l -> Layout_tiered (Vpc.push s nb l).
Proof.
  intros (Hpub & Hpriv & Hiso).
  unfold Vpc.push, Layout_tiered, tiered.
  destruct (Subnet.subnetType s) eqn:Hty; cbn;
    repeat split; try assumption;
    apply Forall_app; split; auto.
Qed.

Lemma createSubnetResources_tiered cfg zones :
  forall index l l',
    Vpc.createSubnetResources cfg zones index l = Ok l' ->
    Layout_tiered l -> Layout_tiered l'.
Proof.
  induction zones as [|zone rest IH]; intros index l l' Hrun Hl; cbn in Hrun.
  - injection Hrun as <-. exact Hl.
  - destruct (NetworkBuilder.addSubnet _ _) as [[block nb]|e]; cbn in Hrun; [|discriminate].
    eapply IH; [exact Hrun|]. now apply push_tiered.
Qed.

Lemma createSubnets_tiered cfgs zones :
  forall l l',
    Vpc.createSubnets cfgs zones l = Ok l' ->
    Layout_tiered l -> Layout_tiered l'.
Proof.
  induction cfgs as [|cfg rest IH]; intros l l' Hrun Hl; cbn in Hrun.
  - injection Hrun as <-. exact Hl.
  - destruct (Vpc.createSubnetResources cfg zones 0 l) as [l1|e] eqn:Htier;
      cbn in Hrun; [|discriminate].
    eapply IH; [exact Hrun|].
    eapply createSubnetResources_tiered; eassumption.
Qed.

(** Whatever the properties and the zones, a network the constructor
    returns has its subnets sorted by tier. *)
Lemma Vpc_create_tiered id props zones vpc :
  Vpc.create id props zones = Ok vpc -> Vpc_tiered vpc.
Proof.
  unfold Vpc.create. intros Hrun.
  destruct (NetworkBuilder.create _) as [nb|e]; cbn in Hrun; [|discriminate].
  destruct (Vpc.determineNatGatewayCount _ _ _) as [count|e]; cbn in Hrun; [|discriminate].
  destruct (Vpc.createSubnets _ _ _) as [l|e] eqn:Hl; cbn in Hrun; [|discriminate].
  injection Hrun as <-.
  apply createSubnets_tiered in Hl; [exact Hl|].
  repeat split; constructor.
Qed.

Lemma retainOnePerAz_Forall (P : Subnet.t -> Prop) subnets :
  forall azsSeen, Forall P subnets -> Forall P (retainOnePerAz azsSeen subnets).
Proof.
  induction subnets as [|s rest IH]; intros azsSeen Hall; cbn; [constructor|].
  inversion Hall as [|? ? Hs Hrest]; subst.
  destruct (existsb _ azsSeen); [now apply IH|].
  constructor; [exact Hs | now apply IH].
Qed.

Lemma retainOnePerAz_incl subnets :
  forall azsSeen s, In s (retainOnePerAz azsSeen subnets) -> In s subnets.
Proof.
  induction subnets as [|x rest IH]; intros azsSeen s; cbn; [tauto|].
  destruct (existsb _ azsSeen); cbn; intros Hin.
  - right. eapply IH, Hin.
  - destruct Hin as [->|Hin]; [now left | right; eapply IH, Hin].
Qed.

(** A selection by type returns subnets of that type only. *)
Lemma selectSubnets_type vpc ty onePerAz subnets :
  Vpc_tiered vpc ->
  selectSubnets vpc (SubnetSelection.make (Some ty) onePerAz) = Ok subnets ->
  Forall (fun s => Subnet.subnetType s = ty) subnets.
Proof.
  intros (Hpub & Hpriv & Hiso) Hsel.
  unfold selectSubnets, selectSubnetObjectsByType in Hsel; cbn in Hsel.
  assert (Hty : Forall (fun s => Subnet.subnetType s = ty)
                  match ty with
                  | PUBLIC => Vpc.publicSubnets vpc
                  | PRIVATE_WITH_NAT => Vpc.privateSubnets vpc
                  | PRIVATE_ISOLATED => Vpc.isolatedSubnets vpc
                  end)
    by (destruct ty; assumption).
  destruct (match ty with
            | PUBLIC => _ | PRIVATE_WITH_NAT => _ | PRIVATE_ISOLATED => _
            end) as [|s rest]; cbn in Hsel; [discriminate|].
  injection Hsel as <-.
  destruct (default false onePerAz);
    [exact (retainOnePerAz_Forall _ (s :: rest) [] Hty) | exact Hty].
Qed.

(** A selection by type returns subnets of the network's list for that type. *)
Lemma selectSubnets_incl vpc ty onePerAz subnets :
  selectSubnets vpc (SubnetSelection.make (Some ty) onePerAz) = Ok subnets ->
  forall s, In s subnets ->
            In s match ty with
                 | PUBLIC => Vpc.publicSubnets vpc
                 | PRIVATE_WITH_NAT => Vpc.privateSubnets vpc
                 | PRIVATE_ISOLATED => Vpc.isolatedSubnets vpc
                 end.
Proof.
  intros Hsel s Hin.
  unfold selectSubnets, selectSubnetObjectsByType in Hsel; cbn in Hsel.
  destruct (match ty with
            | PUBLIC => _ | PRIVATE_WITH_NAT => _ | PRIVATE_ISOLATED => _
            end) as [|x rest]; cbn in Hsel; [discriminate|].
  injection Hsel as <-.
  destruct (default false onePerAz); [|exact Hin].
  exact (retainOnePerAz_incl (x :: rest) [] s Hin).
Qed.

(** A selection by type succeeds as soon as the tier has a subnet. *)
Lemma selectSubnets_ok vpc ty onePerAz :
  match ty with
  | PUBLIC => Vpc.publicSubnets vpc
  | PRIVATE_WITH_NAT => Vpc.privateSubnets vpc
  | PRIVATE_ISOLATED => Vpc.isolatedSubnets vpc
  end <> [] ->
  exists subnets, selectSubnets vpc (SubnetSelection.make (Some ty) onePerAz) = Ok subnets.
Proof.
  intros Hne. unfold selectSubnets, selectSubnetObjectsByType; cbn.
  destruct (match ty with
            | PUBLIC => _ | PRIVATE_WITH_NAT => _ | PRIVATE_ISOLATED => _
            end) as [|s rest]; [congruence|].
  cbn. eauto.
Qed.

End Layout.

(** ** Unfolding one run of the entry point

    A run that ends well has passed four fallible calls: the layout of the
    network, the two kinds of subnet selection, and the read of the boot
    script.  [run_main] splits on each of them and leaves the finished
    application, written out, in the hypothesis. *)

Ltac unfold_run H :=
  cbv -[ec2.Vpc.create ec2.selectSubnets fs.readFileSync] in H.

Ltac case_call H :=
  match type of H with
  | context [ec2.Vpc.create ?id ?props ?zones] =>
      let vpc := fresh "vpc" in
      let Hvpc := fresh "Hvpc" in
      destruct (ec2.Vpc.create id props zones) as [vpc|?] eqn:Hvpc
  | context [ec2.selectSubnets ?vpc ?selection] =>
      let subnets := fresh "subnets" in
      let Hsel := fresh "Hsel" in
      destruct (ec2.selectSubnets vpc selection) as [subnets|?] eqn:Hsel
  | context [fs.readFileSync ?env ?path] =>
      let text := fresh "text" in
      let Hread := fresh "Hread" in
      destruct (fs.readFileSync env path) as [text|?] eqn:Hread
  end; unfold_run H; try discriminate H.

Ltac run_main H :=
  unfold_run H; repeat case_call H; injection H as <-.

(** ** Placement, for any network handle

    The Data Cluster Unit takes the network as a handle.  Whatever network
    it is given, as long as its subnet lists are sorted by tier, the unit
    puts the database's subnet group in isolated subnets and its rotation
    jobs in outbound-only subnets. *)

(** X13. On whatever network handle whose subnet lists are sorted by tier,
    the Data Cluster Unit puts the subnet group in isolated subnets only
    and both rotation jobs in one and the same list of outbound-only
    subnets. *)
Lemma data_cluster_unit_placement (env : Env) (props : DatabaseStack.Props)
    (sc : Construct.Scope Resource) :
  Vpc_tiered (DatabaseStack.vpc props) ->
  DatabaseStack.constructor env props [] = Ok (tt, sc) ->
  exists group multi single,
    Construct.tryFindChild "SubnetGroup" sc = Some (SubnetGroup group) /\
    Forall (fun s => ec2.Subnet.subnetType s = ec2.PRIVATE_ISOLATED)
           (rds.SubnetGroup.vpcSubnets group) /\
    Construct.tryFindChild "DbAdminSecretRotationMultiUser" sc
    = Some (SecretRotation multi) /\
    Construct.tryFindChild "DbRotationPasswordUserSecretRotationSingleUser" sc
    = Some (SecretRotation single) /\
    exists subnets,
      secretsmanager.SecretRotation.vpcSubnets multi = Some subnets /\
      secretsmanager.SecretRotation.vpcSubnets single = Some subnets /\
      Forall (fun s => ec2.Subnet.subnetType s = ec2.PRIVATE_WITH_NAT) subnets.
Proof.
  intros Htiered Hrun.
  destruct props as [vpc protection]. cbn [DatabaseStack.vpc] in Htiered.
  run_main Hrun.
  do 3 eexists.
  split; [reflexivity|].
  split; [exact (selectSubnets_type _ _ _ _ Htiered Hsel)|].
  do 2 (split; [reflexivity|]).
  eexists. do 2 (split; [reflexivity|]).
  exact (selectSubnets_type _ _ _ _ Htiered Hsel0).
Qed.

(** ** The database's subnets *)

(** C1. Every subnet selected into the database cluster's subnet group has
    the fully-isolated reachability class: the selection holds no subnet of
    the public or of the outbound-only tier, and it is drawn from the
    isolated subnets of the network the run declares. *)
Theorem subnet_group_fully_isolated (env : Env) (app : App)
    (Hrun : main env = Ok app) :
  exists vpc group cluster,
    resource app "VpcStack" "Vpc" = Some (Vpc VpcStack.vpcProps vpc) /\
    resource app "DatabaseStack" "SubnetGroup" = Some (SubnetGroup group) /\
    resource app "DatabaseStack" "DbCluster" = Some (DatabaseCluster cluster) /\
    rds.DatabaseCluster.subnetGroup cluster = "SubnetGroup" /\
    Forall (fun s => In s (ec2.Vpc.isolatedSubnets vpc) /\
                     ec2.Subnet.subnetType s = ec2.PRIVATE_ISOLATED /\
                     ec2.Subnet.subnetType s <> ec2.PUBLIC /\
                     ec2.Subnet.subnetType s <> ec2.PRIVATE_WITH_NAT)
           (rds.SubnetGroup.vpcSubnets group).
Proof.
  run_main Hrun.
  do 3 eexists. repeat split; try reflexivity.
  cbn.
  apply Vpc_create_tiered in Hvpc.
  pose proof (selectSubnets_incl _ _ _ _ Hsel) as Hincl. cbn in Hincl.
  apply (selectSubnets_type _ _ _ _ Hvpc) in Hsel.
  apply List.Forall_forall. intros s Hs.
  rewrite List.Forall_forall in Hsel.
  split; [exact (Hincl s Hs)|].
  rewrite (Hsel s Hs). repeat split; discriminate.
Qed.

Lemma subnet_group_fully_isolated_witness :
  main sampleEnv = Ok sampleApp /\
  exists vpc group cluster,
    resource sampleApp "VpcStack" "Vpc" = Some (Vpc VpcStack.vpcProps vpc) /\
    resource sampleApp "DatabaseStack" "SubnetGroup" = Some (SubnetGroup group) /\
    resource sampleApp "DatabaseStack" "DbCluster" = Some (DatabaseCluster cluster) /\
    rds.DatabaseCluster.subnetGroup cluster = "SubnetGroup" /\
    Forall (fun s => In s (ec2.Vpc.isolatedSubnets vpc) /\
                     ec2.Subnet.subnetType s = ec2.PRIVATE_ISOLATED /\
                     ec2.Subnet.subnetType s <> ec2.PUBLIC /\
                     ec2.Subnet.subnetType s <> ec2.PRIVATE_WITH_NAT)
           (rds.SubnetGroup.vpcSubnets group).
Proof.
  split; [vm_compute; reflexivity|].
  apply (subnet_group_fully_isolated sampleEnv sampleApp).
  vm_compute; reflexivity.
Defined.

(** ** The database's inbound rules *)




(** ** Outbound traffic of the security groups *)

(** C10. The run declares three security groups, the client's, the rotation
    worker's and the database's, and each of them allows all outbound
    traffic. *)
Theorem security_groups_allow_all_outbound (env : Env) (app : App)
    (Hrun : main env = Ok app) :
  map fst (securityGroups app) = ["DbClientSg"; "RotateSecretsLambdaFunctionSg"; "DbSg"] /\
  Forall (fun sg => ec2.SecurityGroup.allowAllOutbound (ec2.SecurityGroup.props (snd sg)) = true)
         (securityGroups app).
Proof.
  run_main Hrun. split; [reflexivity|].
  cbn. repeat constructor.
Qed.

Lemma security_groups_allow_all_outbound_witness :
  main sampleEnv = Ok sampleApp /\
  map fst (securityGroups sampleApp) = ["DbClientSg"; "RotateSecretsLambdaFunctionSg"; "DbSg"] /\
  Forall (fun sg => ec2.SecurityGroup.allowAllOutbound (ec2.SecurityGroup.props (snd sg)) = true)
         (securityGroups sampleApp).
Proof.
  split; [vm_compute; reflexivity|].
  apply (security_groups_allow_all_outbound sampleEnv sampleApp).
  vm_compute; reflexivity.
Defined.

(** ** Rotation jobs *)

(** C4. The run declares exactly two rotation jobs.  The multi-user job
    rotates the administrative credential with the rotation worker's
    credential as its master; the single-user job rotates the rotation
    worker's credential and has no master; both target the cluster. *)
Theorem two_rotation_jobs (env : Env) (app : App)
    (Hrun : main env = Ok app) :
  exists multi single admin worker cluster,
    rotations app = [ ("DbAdminSecretRotationMultiUser", multi);
                      ("DbRotationPasswordUserSecretRotationSingleUser", single) ] /\
    resource app "DatabaseStack" "DbAdminSecret" = Some (Secret admin) /\
    resource app "DatabaseStack" "DbRotationPasswordUserSecret" = Some (Secret worker) /\
    resource app "DatabaseStack" "DbCluster" = Some (DatabaseCluster cluster) /\
    rds.DatabaseCluster.credentials cluster = rds.Credentials.fromSecret "DbAdminSecret" /\
    secretsmanager.SecretRotation.application multi = secretsmanager.POSTGRES_ROTATION_MULTI_USER /\
    secretsmanager.SecretRotation.secret multi = "DbAdminSecret" /\
    secretsmanager.SecretRotation.masterSecret multi = Some "DbRotationPasswordUserSecret" /\
    secretsmanager.SecretRotation.application single = secretsmanager.POSTGRES_ROTATION_SINGLE_USER /\
    secretsmanager.SecretRotation.secret single = "DbRotationPasswordUserSecret" /\
    secretsmanager.SecretRotation.masterSecret single = None /\
    secretsmanager.SecretRotation.target multi = "DbCluster" /\
    secretsmanager.SecretRotation.target single = "DbCluster".
Proof.
  run_main Hrun.
  do 5 eexists. repeat split; reflexivity.
Qed.

Lemma two_rotation_jobs_witness :
  main sampleEnv = Ok sampleApp /\
  exists multi single admin worker cluster,
    rotations sampleApp = [ ("DbAdminSecretRotationMultiUser", multi);
                            ("DbRotationPasswordUserSecretRotationSingleUser", single) ] /\
    resource sampleApp "DatabaseStack" "DbAdminSecret" = Some (Secret admin) /\
    resource sampleApp "DatabaseStack" "DbRotationPasswordUserSecret" = Some (Secret worker) /\
    resource sampleApp "DatabaseStack" "DbCluster" = Some (DatabaseCluster cluster) /\
    rds.DatabaseCluster.credentials cluster = rds.Credentials.fromSecret "DbAdminSecret" /\
    secretsmanager.SecretRotation.application multi = secretsmanager.POSTGRES_ROTATION_MULTI_USER /\
    secretsmanager.SecretRotation.secret multi = "DbAdminSecret" /\
    secretsmanager.SecretRotation.masterSecret multi = Some "DbRotationPasswordUserSecret" /\
    secretsmanager.SecretRotation.application single = secretsmanager.POSTGRES_ROTATION_SINGLE_USER /\
    secretsmanager.SecretRotation.secret single = "DbRotationPasswordUserSecret" /\
    secretsmanager.SecretRotation.masterSecret single = None /\
    secretsmanager.SecretRotation.target multi = "DbCluster" /\
    secretsmanager.SecretRotation.target single = "DbCluster".
Proof.
  split; [vm_compute; reflexivity|].
  apply (two_rotation_jobs sampleEnv sampleApp).
  vm_compute; reflexivity.
Defined.

(** C5. Both rotation jobs have the same cadence, and it is three days. *)
Theorem rotation_cadence (env : Env) (app : App)
    (Hrun : main env = Ok app) :
  exists multi single,
    rotations app = [ ("DbAdminSecretRotationMultiUser", multi);
                      ("DbRotationPasswordUserSecretRotationSingleUser", single) ] /\
    secretsmanager.SecretRotation.automaticallyAfter multi
    = secretsmanager.SecretRotation.automaticallyAfter single /\
    secretsmanager.SecretRotation.automaticallyAfter multi = Some (Duration.days 3) /\
    secretsmanager.SecretRotation.automaticallyAfter single = Some (Duration.days 3) /\
    Duration.toDays (Duration.days 3) = Some 3%Z.
Proof.
  run_main Hrun.
  do 2 eexists. repeat split; reflexivity.
Qed.

Lemma rotation_cadence_witness :
  main sampleEnv = Ok sampleApp /\
  exists multi single,
    rotations sampleApp = [ ("DbAdminSecretRotationMultiUser", multi);
                            ("DbRotationPasswordUserSecretRotationSingleUser", single) ] /\
    secretsmanager.SecretRotation.automaticallyAfter multi
    = secretsmanager.SecretRotation.automaticallyAfter single /\
    secretsmanager.SecretRotation.automaticallyAfter multi = Some (Duration.days 3) /\
    secretsmanager.SecretRotation.automaticallyAfter single = Some (Duration.days 3) /\
    Duration.toDays (Duration.days 3) = Some 3%Z.
Proof.
  split; [vm_compute; reflexivity|].
  apply (rotation_cadence sampleEnv sampleApp).
  vm_compute; reflexivity.
Defined.

(** C7. Every subnet selected for the placement of either rotation job has
    the outbound-only reachability class: no job is placed in a public or
    in a fully-isolated subnet. *)
Theorem rotation_jobs_outbound_only (env : Env) (app : App)
    (Hrun : main env = Ok app) :
  Forall (fun job =>
            exists subnets,
              secretsmanager.SecretRotation.vpcSubnets (snd job) = Some subnets /\
              Forall (fun s => ec2.Subnet.subnetType s = ec2.PRIVATE_WITH_NAT /\
                               ec2.Subnet.subnetType s <> ec2.PUBLIC /\
                               ec2.Subnet.subnetType s <> ec2.PRIVATE_ISOLATED) subnets)
         (rotations app).
Proof.
  run_main Hrun.
  apply Vpc_create_tiered in Hvpc.
  apply (selectSubnets_type _ _ _ _ Hvpc) in Hsel0.
  assert (Htier : Forall (fun s => ec2.Subnet.subnetType s = ec2.PRIVATE_WITH_NAT /\
                                   ec2.Subnet.subnetType s <> ec2.PUBLIC /\
                                   ec2.Subnet.subnetType s <> ec2.PRIVATE_ISOLATED) subnets0).
  { eapply Forall_impl; [exact Hsel0|]. cbn. intros s ->. repeat split; discriminate. }
  cbn. repeat constructor; eexists; (split; [reflexivity | exact Htier]).
Qed.

Lemma rotation_jobs_outbound_only_witness :
  main sampleEnv = Ok sampleApp /\
  Forall (fun job =>
            exists subnets,
              secretsmanager.SecretRotation.vpcSubnets (snd job) = Some subnets /\
              Forall (fun s => ec2.Subnet.subnetType s = ec2.PRIVATE_WITH_NAT /\
                               ec2.Subnet.subnetType s <> ec2.PUBLIC /\
                               ec2.Subnet.subnetType s <> ec2.PRIVATE_ISOLATED) subnets)
         (rotations sampleApp).
Proof.
  split; [vm_compute; reflexivity|].
  apply (rotation_jobs_outbound_only sampleEnv sampleApp).
  vm_compute; reflexivity.
Defined.

(** ** Deletion safeguards *)

(** C6. The cluster's deletion protection is on, and so is the termination
    protection of the two stacks, which are all the stacks of the run. *)
Theorem deletion_safeguards (env : Env) (app : App)
    (Hrun : main env = Ok app) :
  exists cluster,
    resource app "DatabaseStack" "DbCluster" = Some (DatabaseCluster cluster) /\
    rds.DatabaseCluster.deletionProtection cluster = true /\
    map fst app = ["VpcStack"; "DatabaseStack"] /\
    Forall (fun st => Stack.terminationProtection (Stack.props (snd st)) = Some true) app.
Proof.
  run_main Hrun.
  eexists. repeat split; try reflexivity.
  cbn. repeat constructor.
Qed.

Lemma deletion_safeguards_witness :
  main sampleEnv = Ok sampleApp /\
  exists cluster,
    resource sampleApp "DatabaseStack" "DbCluster" = Some (DatabaseCluster cluster) /\
    rds.DatabaseCluster.deletionProtection cluster = true /\
    map fst sampleApp = ["VpcStack"; "DatabaseStack"] /\
    Forall (fun st => Stack.terminationProtection (Stack.props (snd st)) = Some true) sampleApp.
Proof.
  split; [vm_compute; reflexivity|].
  apply (deletion_safeguards sampleEnv sampleApp).
  vm_compute; reflexivity.
Defined.

(** ** The administrative credential's generation policy *)

Section Policy.

Import secretsmanager.SecretStringGenerator.

Lemma mem_In c s : Str.mem c s = true <-> In c (Str.chars s).
Proof.
  unfold Str.mem. rewrite existsb_exists. split.
  - intros (x & Hin & Heq). apply Ascii.eqb_eq in Heq. now subst.
  - intros Hin. exists c. split; [exact Hin | apply Ascii.eqb_refl].
Qed.

Lemma admits_inv g v :
  admits g v = true ->
  String.length v = default 32%nat (passwordLength g) /\
  forallb (allowed g) (Str.chars v) = true /\
  forallb (fun cl => existsb (inClass cl) (Str.chars v)) (required g) = true.
Proof.
  unfold admits. intros H.
  apply andb_prop in H as [H Hreq]. apply andb_prop in H as [Hlen Hall].
  apply Nat.eqb_eq in Hlen. auto.
Qed.

Lemma allowed_not_excluded g c :
  allowed g c = true ->
  ~ In c (Str.chars (default "" (excludeCharacters g))).
Proof.
  unfold allowed. destruct (classOf c); [|discriminate].
  intros H Hin. apply andb_prop in H as [_ H].
  apply mem_In in Hin. rewrite Hin in H. discriminate.
Qed.

Lemma inClass_classOf cl c : inClass cl c = true -> classOf c = Some cl.
Proof.
  unfold inClass. destruct (classOf c) as [cl'|]; [|discriminate].
  destruct cl, cl'; cbn; intros H; try discriminate; reflexivity.
Qed.

(** A value the policy admits has a character of every required class. *)
Lemma admits_required g v cl :
  admits g v = true -> In cl (required g) ->
  exists c, In c (Str.chars v) /\ classOf c = Some cl.
Proof.
  intros H Hcl. apply admits_inv in H as (_ & _ & Hreq).
  rewrite forallb_forall in Hreq. specialize (Hreq cl Hcl).
  apply existsb_exists in Hreq as (c & Hin & Hc).
  exists c. split; [exact Hin | now apply inClass_classOf].
Qed.

(** A value the policy admits has none of the excluded characters. *)
Lemma admits_excluded g v c :
  admits g v = true -> In c (Str.chars v) ->
  ~ In c (Str.chars (default "" (excludeCharacters g))).
Proof.
  intros H Hin. apply admits_inv in H as (_ & Hall & _).
  rewrite forallb_forall in Hall. apply allowed_not_excluded, Hall, Hin.
Qed.

End Policy.

(** C3. The administrative credential is generated under a policy of length
    32 that requires every included character class and excludes exactly
    the colon, the at-sign, the slash, the double quote, the space and the
    single quote; a value generated under it has length 32, a character of
    each of the four classes, and no excluded character. *)
Theorem admin_password_policy (env : Env) (app : App)
    (admin : secretsmanager.Secret.Props)
    (policy : secretsmanager.SecretStringGenerator.t) (v : string)
    (Hrun : main env = Ok app)
    (Hadmin : resource app "DatabaseStack" "DbAdminSecret" = Some (Secret admin))
    (Hpolicy : secretsmanager.Secret.generateSecretString admin = Some policy)
    (Hvalue : secretsmanager.SecretStringGenerator.admits policy v = true) :
  secretsmanager.SecretStringGenerator.passwordLength policy = Some 32%nat /\
  secretsmanager.SecretStringGenerator.requireEachIncludedType policy = Some true /\
  secretsmanager.SecretStringGenerator.required policy
  = [ secretsmanager.SecretStringGenerator.Lowercase;
      secretsmanager.SecretStringGenerator.Uppercase;
      secretsmanager.SecretStringGenerator.Numbers;
      secretsmanager.SecretStringGenerator.Punctuation ] /\
  secretsmanager.SecretStringGenerator.excludeCharacters policy
  = Some DatabaseStack.EXCLUDE_CHARACTERS /\
  Str.chars DatabaseStack.EXCLUDE_CHARACTERS
  = [":"; "@"; "/"; Str.dquote; " "; "'"]%char /\
  String.length v = 32%nat /\
  (forall cl, In cl [ secretsmanager.SecretStringGenerator.Lowercase;
                      secretsmanager.SecretStringGenerator.Uppercase;
                      secretsmanager.SecretStringGenerator.Numbers;
                      secretsmanager.SecretStringGenerator.Punctuation ] ->
              exists c, In c (Str.chars v) /\
                        secretsmanager.SecretStringGenerator.classOf c = Some cl) /\
  (forall c, In c (Str.chars v) -> ~ In c (Str.chars DatabaseStack.EXCLUDE_CHARACTERS)).
Proof.
  run_main Hrun.
  cbv in Hadmin. injection Hadmin as <-.
  cbv in Hpolicy. injection Hpolicy as <-.
  change (secretsmanager.SecretStringGenerator.admits DatabaseStack.adminGenerator v = true)
    in Hvalue.
  change (secretsmanager.SecretStringGenerator.make _ _ _ _ _ _ _ _ _ _)
    with DatabaseStack.adminGenerator.
  assert (Hreq : secretsmanager.SecretStringGenerator.required DatabaseStack.adminGenerator
                 = [ secretsmanager.SecretStringGenerator.Lowercase;
                     secretsmanager.SecretStringGenerator.Uppercase;
                     secretsmanager.SecretStringGenerator.Numbers;
                     secretsmanager.SecretStringGenerator.Punctuation ])
    by (vm_compute; reflexivity).
  repeat split; try reflexivity; try exact Hreq.
  - now apply admits_inv in Hvalue as (Hlen & _ & _).
  - intros cl Hcl. rewrite <- Hreq in Hcl. eapply admits_required; eassumption.
  - intros c Hc. exact (admits_excluded _ _ _ Hvalue Hc).
Qed.

Lemma admin_password_policy_witness :
  main sampleEnv = Ok sampleApp /\
  resource sampleApp "DatabaseStack" "DbAdminSecret"
  = Some (Secret (secretsmanager.Secret.mkProps "prd-db-cluster/AdminLoginInfo"
                    (Some DatabaseStack.adminGenerator) None)) /\
  secretsmanager.SecretStringGenerator.admits DatabaseStack.adminGenerator samplePassword = true /\
  String.length samplePassword = 32%nat /\
  (forall c, In c (Str.chars samplePassword) ->
             ~ In c (Str.chars DatabaseStack.EXCLUDE_CHARACTERS)).
Proof.
  split; [vm_compute; reflexivity|].
  split; [vm_compute; reflexivity|].
  split; [vm_compute; reflexivity|].
  destruct (admin_password_policy sampleEnv sampleApp
              (secretsmanager.Secret.mkProps "prd-db-cluster/AdminLoginInfo"
                 (Some DatabaseStack.adminGenerator) None)
              DatabaseStack.adminGenerator samplePassword)
    as (_ & _ & _ & _ & _ & Hlen & _ & Hexcl);
    try (vm_compute; reflexivity).
  split; assumption.
Defined.

(** ** The network's subnets *)

(** C8. With at least two zones on offer, the Network Topology Unit lays
    out exactly six subnets, the three tiers in each of the first two
    zones; each subnet has a /28 block, the six blocks are pairwise
    disjoint, and each lies inside the /24 block of the network. *)
Theorem network_layout (env : Env)
    (Hzones : 2 <= length (availabilityZones env)) :
  exists vpc parent,
    VpcStack.constructor env [] = Ok (vpc, [("Vpc", Vpc VpcStack.vpcProps vpc)]) /\
    ec2.CidrBlock.ofString (ec2.Vpc.cidr VpcStack.vpcProps) = Ok parent /\
    ec2.CidrBlock.cidr parent = "10.10.0.0/24" /\
    length (ec2.Vpc.subnets vpc) = 6 /\
    Vpc_tiered vpc /\
    map ec2.Subnet.availabilityZone (ec2.Vpc.publicSubnets vpc)
    = firstn 2 (availabilityZones env) /\
    map ec2.Subnet.availabilityZone (ec2.Vpc.privateSubnets vpc)
    = firstn 2 (availabilityZones env) /\
    map ec2.Subnet.availabilityZone (ec2.Vpc.isolatedSubnets vpc)
    = firstn 2 (availabilityZones env) /\
    Forall (fun s => ec2.CidrBlock.mask (block s) = 28%Z) (ec2.Vpc.subnets vpc) /\
    Forall (fun s => ec2.CidrBlock.within parent (block s)) (ec2.Vpc.subnets vpc) /\
    ForallOrdPairs (fun a b => ec2.CidrBlock.disjoint (block a) (block b))
                   (ec2.Vpc.subnets vpc).
Proof.
  destruct env as [zones fl]. cbn [availabilityZones] in *.
  destruct zones as [|a [|b rest]]; cbn in Hzones; try lia.
  pose (r := ec2.Vpc.create "Vpc" VpcStack.vpcProps (a :: b :: rest)).
  assert (Hr : ec2.Vpc.create "Vpc" VpcStack.vpcProps (a :: b :: rest) = r) by reflexivity.
  vm_compute in r.
  pose (p := ec2.CidrBlock.ofString (ec2.Vpc.cidr VpcStack.vpcProps)).
  assert (Hp : ec2.CidrBlock.ofString (ec2.Vpc.cidr VpcStack.vpcProps) = p) by reflexivity.
  vm_compute in p.
  subst r p.
  match type of Hr with _ = Ok ?vpc => exists vpc end.
  match type of Hp with _ = Ok ?parent => exists parent end.
  split.
  { unfold VpcStack.constructor, Construct.andThen, Construct.lift.
    cbn [availabilityZones]. rewrite Hr. reflexivity. }
  split; [exact Hp|].
  split; [vm_compute; reflexivity|].
  split; [reflexivity|].
  split; [apply (Vpc_create_tiered _ _ _ _ Hr)|].
  do 3 (split; [reflexivity|]).
  split; [repeat constructor|].
  split.
  - repeat constructor; cbv; discriminate.
  - repeat constructor; cbv; (left + right); reflexivity.
Qed.

Lemma network_layout_witness :
  2 <= length (availabilityZones sampleEnv) /\
  exists vpc,
    VpcStack.constructor sampleEnv [] = Ok (vpc, [("Vpc", Vpc VpcStack.vpcProps vpc)]) /\
    map (fun s => ec2.CidrBlock.cidr (block s)) (ec2.Vpc.subnets vpc)
    = ["10.10.0.0/28"; "10.10.0.16/28"; "10.10.0.32/28";
       "10.10.0.48/28"; "10.10.0.64/28"; "10.10.0.80/28"].
Proof.
  split; [cbn; lia|].
  destruct (network_layout sampleEnv) as (vpc & parent & Hvpc & _); [cbn; lia|].
  exists vpc. split; [exact Hvpc|].
  vm_compute in Hvpc. injection Hvpc as <-.
  vm_compute. reflexivity.
Defined.

(** ** Runs that return *)

(** The layout of the network succeeds as soon as a zone is on offer, and
    it gives the outbound-only and the isolated tier a subnet each. *)
Lemma vpc_create_ok (zones : list string) :
  zones <> [] ->
  exists vpc,
    ec2.Vpc.create "Vpc" VpcStack.vpcProps zones = Ok vpc /\
    ec2.Vpc.privateSubnets vpc <> [] /\
    ec2.Vpc.isolatedSubnets vpc <> [].
Proof.
  intros Hne.
  destruct zones as [|a [|b rest]]; [congruence| |].
  - pose (r := ec2.Vpc.create "Vpc" VpcStack.vpcProps [a]).
    assert (Hr : ec2.Vpc.create "Vpc" VpcStack.vpcProps [a] = r) by reflexivity.
    vm_compute in r. subst r.
    match type of Hr with _ = Ok ?vpc => exists vpc end.
    split; [exact Hr | split; discriminate].
  - pose (r := ec2.Vpc.create "Vpc" VpcStack.vpcProps (a :: b :: rest)).
    assert (Hr : ec2.Vpc.create "Vpc" VpcStack.vpcProps (a :: b :: rest) = r) by reflexivity.
    vm_compute in r. subst r.
    match type of Hr with _ = Ok ?vpc => exists vpc end.
    split; [exact Hr | split; discriminate].
Qed.

(** The entry point returns: with two zones on offer and the boot script in
    place, no step of the run throws. *)
Lemma main_ok (env : Env) :
  2 <= length (availabilityZones env) ->
  is_Some (files env bootScriptPath) ->
  exists app, main env = Ok app.
Proof.
  intros Htwo [text Hfile].
  assert (Hzones : availabilityZones env <> [])
    by (intros Hnil; rewrite Hnil in Htwo; cbn in Htwo; lia).
  destruct (vpc_create_ok _ Hzones) as (vpc0 & Hcreate & Hpriv & Hiso).
  destruct (selectSubnets_ok vpc0 ec2.PRIVATE_ISOLATED (Some true) Hiso) as (iso & Hselect_iso).
  destruct (selectSubnets_ok vpc0 ec2.PRIVATE_WITH_NAT None Hpriv) as (nat & Hselect_nat).
  assert (Hscript : fs.readFileSync env bootScriptPath = Ok text)
    by (unfold fs.readFileSync; now rewrite Hfile).
  destruct (main env) as [app|e] eqn:Hrun; [eauto|].
  exfalso.
  unfold_run Hcreate. unfold_run Hselect_iso. unfold_run Hselect_nat.
  unfold_run Hscript.
  unfold_run Hrun.
  rewrite Hcreate in Hrun. unfold_run Hrun.
  rewrite Hselect_iso in Hrun. unfold_run Hrun.
  rewrite Hselect_nat in Hrun. unfold_run Hrun.
  rewrite Hscript in Hrun. unfold_run Hrun.
  discriminate Hrun.
Qed.

(** * Further properties of the units *)

(** ** How a run ends *)

(** X1. How a run ends, as far as its surroundings decide it.  With no
    zone on offer the network's constructor throws, since the outbound-only
    tier would be left without a gateway, and nothing of the Data Cluster
    Unit is reached.  With a zone but without the boot script the read of
    the script throws.  With two zones or more and the script the run
    returns.  And a run that returns had a zone and the script. *)
Theorem run_outcome (env : Env) :
  (availabilityZones env = [] ->
   main env = Throw PrivateSubnetsWithoutNatGateways) /\
  (availabilityZones env <> [] -> files env bootScriptPath = None ->
   main env = Throw (NoSuchFile bootScriptPath)) /\
  (2 <= length (availabilityZones env) -> is_Some (files env bootScriptPath) ->
   exists app, main env = Ok app) /\
  (forall app, main env = Ok app ->
               availabilityZones env <> [] /\ is_Some (files env bootScriptPath)).
Proof.
  assert (Hnone : availabilityZones env = [] ->
                  main env = Throw PrivateSubnetsWithoutNatGateways).
  { destruct env as [zones fl]. cbn [availabilityZones]. intros ->.
    vm_compute. reflexivity. }
  assert (Hmissing : availabilityZones env <> [] -> files env bootScriptPath = None ->
                     main env = Throw (NoSuchFile bootScriptPath)).
  { intros Hzones Hfile.
    destruct (vpc_create_ok _ Hzones) as (vpc0 & Hcreate & Hpriv & Hiso).
    destruct (selectSubnets_ok vpc0 ec2.PRIVATE_ISOLATED (Some true) Hiso)
      as (iso & Hselect_iso).
    destruct (selectSubnets_ok vpc0 ec2.PRIVATE_WITH_NAT None Hpriv)
      as (nat & Hselect_nat).
    assert (Hscript : fs.readFileSync env bootScriptPath
                      = Throw (NoSuchFile bootScriptPath))
      by (unfold fs.readFileSync; now rewrite Hfile).
    unfold_run Hcreate. unfold_run Hselect_iso. unfold_run Hselect_nat.
    unfold_run Hscript.
    cbv -[ec2.Vpc.create ec2.selectSubnets fs.readFileSync].
    rewrite Hcreate. cbv -[ec2.Vpc.create ec2.selectSubnets fs.readFileSync].
    rewrite Hselect_iso. cbv -[ec2.Vpc.create ec2.selectSubnets fs.readFileSync].
    rewrite Hselect_nat. cbv -[ec2.Vpc.create ec2.selectSubnets fs.readFileSync].
    rewrite Hscript. reflexivity. }
  split; [exact Hnone|]. split; [exact Hmissing|]. split; [apply main_ok|].
  intros app Hrun.
  destruct (availabilityZones env) as [|a rest] eqn:Hzones.
  - rewrite Hnone in Hrun by reflexivity. discriminate Hrun.
  - split; [discriminate|].
    destruct (files env bootScriptPath) as [text|] eqn:Hfile; [eauto|].
    rewrite Hmissing in Hrun by (rewrite ?Hzones; congruence). discriminate Hrun.
Qed.

(** ** The administrative node *)

(** X2. The text of the boot script reaches the administrative node as it
    was read: whatever the file holds, the node's user data is the shebang
    line followed by that text as its single command. *)
Theorem boot_script_verbatim (env : Env) (app : App)
    (Hrun : main env = Ok app) :
  exists text client,
    files env bootScriptPath = Some text /\
    resource app "DatabaseStack" "DbClient" = Some (Instance client) /\
    ec2.Instance.userData client
    = ec2.UserData.make "#!/bin/bash" [text].
Proof.
  run_main Hrun.
  unfold fs.readFileSync in Hread.
  change (let (_, files) := env in files) with (files env) in Hread.
  change "./src/ec2/user_data_amazon_linux2.sh" with bootScriptPath in Hread.
  destruct (files env bootScriptPath) as [text'|]; [|discriminate].
  injection Hread as ->.
  do 2 eexists. repeat split; reflexivity.
Qed.

Lemma boot_script_verbatim_witness :
  main sampleEnv = Ok sampleApp /\
  exists text client,
    files sampleEnv bootScriptPath = Some text /\
    resource sampleApp "DatabaseStack" "DbClient" = Some (Instance client) /\
    ec2.Instance.userData client
    = ec2.UserData.make "#!/bin/bash" [text].
Proof.
  split; [vm_compute; reflexivity|].
  apply (boot_script_verbatim sampleEnv sampleApp).
  vm_compute; reflexivity.
Defined.

(** A selection that succeeds is not empty. *)
Lemma retainOnePerAz_nonempty s rest :
  ec2.retainOnePerAz [] (s :: rest) <> [].
Proof. cbn. discriminate. Qed.

Lemma selectSubnets_nonempty vpc selection subnets :
  ec2.selectSubnets vpc selection = Ok subnets -> subnets <> [].
Proof.
  unfold ec2.selectSubnets. intros Hsel.
  destruct (ec2.selectSubnetObjectsByType vpc _) as [l|e] eqn:Hty; cbn in Hsel;
    [|discriminate].
  injection Hsel as <-.
  unfold ec2.selectSubnetObjectsByType in Hty.
  destruct (match _ with ec2.PUBLIC => _ | _ => _ end) as [|s rest];
    [discriminate|].
  injection Hty as <-.
  destruct (default false _); [apply retainOnePerAz_nonempty | discriminate].
Qed.

(** X3. The administrative node is placed in at least one subnet, and every
    subnet it is placed in is an outbound-only subnet of the network the
    run declares: never a public and never an isolated one. *)
Theorem client_node_outbound_only (env : Env) (app : App)
    (Hrun : main env = Ok app) :
  exists vpc client,
    resource app "VpcStack" "Vpc" = Some (Vpc VpcStack.vpcProps vpc) /\
    resource app "DatabaseStack" "DbClient" = Some (Instance client) /\
    ec2.Instance.vpcSubnets client <> [] /\
    Forall (fun s => In s (ec2.Vpc.privateSubnets vpc) /\
                     ec2.Subnet.subnetType s = ec2.PRIVATE_WITH_NAT /\
                     ec2.Subnet.subnetType s <> ec2.PUBLIC /\
                     ec2.Subnet.subnetType s <> ec2.PRIVATE_ISOLATED)
           (ec2.Instance.vpcSubnets client).
Proof.
  run_main Hrun.
  do 2 eexists. repeat split; try reflexivity.
  - cbn. exact (selectSubnets_nonempty _ _ _ Hsel0).
  - cbn.
    apply Vpc_create_tiered in Hvpc.
    pose proof (selectSubnets_incl _ _ _ _ Hsel0) as Hincl. cbn in Hincl.
    apply (selectSubnets_type _ _ _ _ Hvpc) in Hsel0.
    apply List.Forall_forall. intros s Hs.
    rewrite List.Forall_forall in Hsel0.
    split; [exact (Hincl s Hs)|].
    rewrite (Hsel0 s Hs). repeat split; discriminate.
Qed.

Lemma client_node_outbound_only_witness :
  main sampleEnv = Ok sampleApp /\
  exists vpc client,
    resource sampleApp "VpcStack" "Vpc" = Some (Vpc VpcStack.vpcProps vpc) /\
    resource sampleApp "DatabaseStack" "DbClient" = Some (Instance client) /\
    ec2.Instance.vpcSubnets client <> [] /\
    Forall (fun s => In s (ec2.Vpc.privateSubnets vpc) /\
                     ec2.Subnet.subnetType s = ec2.PRIVATE_WITH_NAT /\
                     ec2.Subnet.subnetType s <> ec2.PUBLIC /\
                     ec2.Subnet.subnetType s <> ec2.PRIVATE_ISOLATED)
           (ec2.Instance.vpcSubnets client).
Proof.
  split; [vm_compute; reflexivity|].
  apply (client_node_outbound_only sampleEnv sampleApp).
  vm_compute; reflexivity.
Defined.

(** ** Handles *)

(** X4. Inside the Data Cluster Unit every handle a declaration holds names
    a construct of the expected kind that was declared before it: security
    groups before the rules and the cluster that name them, credentials and
    the cluster before the rotation jobs, the policy before the role, and
    the role before the administrative node. *)
Theorem references_resolve (env : Env) (app : App)
    (Hrun : main env = Ok app) :
  exists st,
    stackOf app "DatabaseStack" = Some st /\
    declaredInOrder [] (Stack.children st) = true.
Proof.
  run_main Hrun.
  eexists. split; [reflexivity|].
  vm_compute. reflexivity.
Qed.

(** The check tells an order apart: the same declarations in the reverse
    order hold handles of constructs that are not there yet. *)
Example declaredInOrder_rejects_reverse :
  match stackOf sampleApp "DatabaseStack" with
  | Some st => declaredInOrder [] (rev (Stack.children st)) = false
  | None => False
  end.
Proof. vm_compute. reflexivity. Qed.

Lemma references_resolve_witness :
  main sampleEnv = Ok sampleApp /\
  exists st,
    stackOf sampleApp "DatabaseStack" = Some st /\
    declaredInOrder [] (Stack.children st) = true.
Proof.
  split; [vm_compute; reflexivity|].
  apply (references_resolve sampleEnv sampleApp).
  vm_compute; reflexivity.
Defined.

(** X5. The Data Cluster Unit works on the network the Network Topology Unit
    hands over: every declaration that names a network names that one, and
    every subnet given to a declaration is one of its subnets. *)
Theorem network_handle_shared (env : Env) (app : App)
    (Hrun : main env = Ok app) :
  exists vpc st,
    resource app "VpcStack" "Vpc" = Some (Vpc VpcStack.vpcProps vpc) /\
    stackOf app "DatabaseStack" = Some st /\
    Forall (fun c => Forall (fun v => v = ec2.Vpc.vpcId vpc) (vpcRefs (snd c)) /\
                     Forall (fun s => In s (ec2.Vpc.subnets vpc)) (subnetsUsed (snd c)))
           (Stack.children st).
Proof.
  run_main Hrun.
  do 2 eexists. split; [reflexivity|]. split; [reflexivity|].
  pose proof (selectSubnets_incl _ _ _ _ Hsel) as Hiso. cbn in Hiso.
  pose proof (selectSubnets_incl _ _ _ _ Hsel0) as Hnat. cbn in Hnat.
  assert (Hiso' : Forall (fun s => In s (ec2.Vpc.subnets vpc)) subnets).
  { apply List.Forall_forall. intros s Hs. unfold ec2.Vpc.subnets.
    apply in_or_app. right. apply in_or_app. right. exact (Hiso s Hs). }
  assert (Hnat' : Forall (fun s => In s (ec2.Vpc.subnets vpc)) subnets0).
  { apply List.Forall_forall. intros s Hs. unfold ec2.Vpc.subnets.
    apply in_or_app. right. apply in_or_app. left. exact (Hnat s Hs). }
  cbn. repeat constructor; assumption.
Qed.

Lemma network_handle_shared_witness :
  main sampleEnv = Ok sampleApp /\
  exists vpc st,
    resource sampleApp "VpcStack" "Vpc" = Some (Vpc VpcStack.vpcProps vpc) /\
    stackOf sampleApp "DatabaseStack" = Some st /\
    Forall (fun c => Forall (fun v => v = ec2.Vpc.vpcId vpc) (vpcRefs (snd c)) /\
                     Forall (fun s => In s (ec2.Vpc.subnets vpc)) (subnetsUsed (snd c)))
           (Stack.children st).
Proof.
  split; [vm_compute; reflexivity|].
  apply (network_handle_shared sampleEnv sampleApp).
  vm_compute; reflexivity.
Defined.

(** ** The allocator of subnet blocks *)

Section Blocks.

Import ec2.

Local Open Scope Z_scope.

Lemma netsize_pos m : 16 <= m <= 28 -> 0 < CidrBlock.calculateNetsize m.
Proof. intros Hm. unfold CidrBlock.calculateNetsize. apply Z.pow_pos_nonneg; lia. Qed.

(** A block made from a number starts at or after it, on a multiple of its
    size. *)
Lemma ofNumber_bounds ip m :
  0 < CidrBlock.calculateNetsize m ->
  let b := CidrBlock.ofNumber ip m in
  ip <= CidrBlock.minAddress b <= ip + CidrBlock.calculateNetsize m - 1 /\
  CidrBlock.maxAddress b = CidrBlock.minAddress b + CidrBlock.calculateNetsize m - 1 /\
  CidrBlock.minAddress b
  = CidrBlock.calculateNetsize m
    * ((ip + CidrBlock.calculateNetsize m - 1) / CidrBlock.calculateNetsize m).
Proof.
  intros Hs b. subst b.
  unfold CidrBlock.maxAddress, CidrBlock.minAddress, CidrBlock.ofNumber,
    CidrBlock.networkSize; cbn.
  set (s := CidrBlock.calculateNetsize m) in *.
  pose proof (Z.mod_pos_bound (ip + s - 1) s Hs) as Hmod.
  pose proof (Z.mod_eq (ip + s - 1) s ltac:(lia)) as Heq.
  lia.
Qed.

Lemma addSubnet_inv m nb b nb' :
  NetworkBuilder.addSubnet m nb = Ok (b, nb') ->
  16 <= m <= 28 /\
  NetworkBuilder.nextAvailableIp nb + CidrBlock.calculateNetsize m - 1
  <= CidrBlock.maxAddress (NetworkBuilder.networkCidr nb) /\
  b = CidrBlock.ofNumber (NetworkBuilder.nextAvailableIp nb) m /\
  nb' = NetworkBuilder.make (NetworkBuilder.networkCidr nb)
          (NetworkBuilder.subnetCidrs nb ++ [b])
          (CidrBlock.minAddress (CidrBlock.nextBlock b)).
Proof.
  unfold NetworkBuilder.addSubnet. intros H.
  destruct (m <? 16) eqn:Hlo; [discriminate|].
  destruct (28 <? m) eqn:Hhi; [discriminate|].
  cbn in H.
  destruct (_ <? _) eqn:Hfit in H; [discriminate|].
  unfold CidrBlock.checked in H.
  destruct (CidrBlock.validAddress _) in H; cbn in H; [|discriminate].
  destruct (CidrBlock.validAddress _) in H; cbn in H; [|discriminate].
  injection H as <- <-.
  apply Z.ltb_ge in Hlo, Hhi, Hfit.
  repeat split; try lia; reflexivity.
Qed.

Lemma ForallOrdPairs_snoc {A} (R : A -> A -> Prop) (l : list A) (x : A) :
  ForallOrdPairs R l -> Forall (fun y => R y x) l -> ForallOrdPairs R (l ++ [x]).
Proof.
  induction 1 as [|y l Hy Hl IH]; cbn; intros Hx.
  - repeat constructor.
  - inversion Hx as [|? ? Hyx Hlx]; subst.
    constructor; [|now apply IH].
    apply Forall_app. split; [exact Hy | repeat constructor; exact Hyx].
Qed.

(** One more block keeps the allocator's promises, and it has the mask
    that was asked for. *)
Lemma addSubnet_allocated m nb b nb' :
  Allocated nb ->
  NetworkBuilder.addSubnet m nb = Ok (b, nb') ->
  Allocated nb' /\ CidrBlock.mask b = m /\
  NetworkBuilder.networkCidr nb' = NetworkBuilder.networkCidr nb /\
  NetworkBuilder.subnetCidrs nb' = NetworkBuilder.subnetCidrs nb ++ [b].
Proof.
  intros (Hnext & Hblocks & Hdisj) Hadd.
  apply addSubnet_inv in Hadd as (Hm & Hfit & -> & ->).
  set (P := NetworkBuilder.networkCidr nb) in *.
  set (next := NetworkBuilder.nextAvailableIp nb) in *.
  set (s := CidrBlock.calculateNetsize m) in *.
  assert (Hs : 0 < s) by now apply netsize_pos.
  destruct (ofNumber_bounds next m Hs) as (Hmin & Hmax & Hmul).
  fold s in Hmin, Hmax, Hmul.
  set (b := CidrBlock.ofNumber next m) in *.
  (* the block after [b] starts after [b] ends *)
  assert (Hnext' : CidrBlock.maxAddress b
                   < CidrBlock.minAddress (CidrBlock.nextBlock b)).
  { unfold CidrBlock.nextBlock.
    destruct (ofNumber_bounds (CidrBlock.maxAddress b + 1) (CidrBlock.mask b))
      as (Hlo & _); [exact Hs|]. lia. }
  (* [b] ends inside the network *)
  assert (Hin : CidrBlock.maxAddress b <= CidrBlock.maxAddress P).
  { unfold CidrBlock.maxAddress at 2. unfold CidrBlock.maxAddress in Hfit.
    set (ps := CidrBlock.networkSize P) in *.
    assert (Hps : s <= ps) by lia.
    assert (Hdiv : exists k, ps = s * k).
    { unfold ps, s, CidrBlock.networkSize, CidrBlock.calculateNetsize in *.
      destruct (Z_lt_le_dec (32 - CidrBlock.mask P) (32 - m)) as [Hlt|Hge].
      - exfalso.
        destruct (Z_lt_le_dec (32 - CidrBlock.mask P) 0) as [Hneg|Hpos].
        + rewrite (Z.pow_neg_r 2 _ Hneg) in Hps. lia.
        + pose proof (Z.pow_lt_mono_r 2 (32 - CidrBlock.mask P) (32 - m)
                        ltac:(lia) ltac:(lia) Hlt). lia.
      - exists (2 ^ (m - CidrBlock.mask P)).
        rewrite <- Z.pow_add_r by lia. f_equal. lia. }
    destruct Hdiv as (k & Hk).
    assert (HminP : CidrBlock.minAddress P
                    = ps * (CidrBlock.networkAddress P / ps)).
    { unfold CidrBlock.minAddress. fold ps.
      rewrite (Z.mod_eq _ ps) by lia. lia. }
    set (q := CidrBlock.networkAddress P / ps) in *.
    set (d := (next + s - 1) / s) in *.
    assert (Hd : d < k * (q + 1)).
    { apply Z.div_lt_upper_bound; [exact Hs|]. nia. }
    nia. }
  repeat split; cbn [NetworkBuilder.networkCidr NetworkBuilder.subnetCidrs
                     NetworkBuilder.nextAvailableIp].
  - fold P. lia.
  - apply Forall_app. split.
    + eapply Forall_impl; [exact Hblocks|]. cbn. intros y (Hy & Hend). split; [exact Hy | lia].
    + repeat constructor; fold P; lia.
  - apply ForallOrdPairs_snoc; [exact Hdisj|].
    eapply Forall_impl; [exact Hblocks|]. cbn. intros y (_ & Hend). left. lia.
Qed.

End Blocks.

(** ** The layout of a network, whatever its configuration *)

Section AnyLayout.

Import ec2.

Lemma push_subnets s nb l :
  Permutation (layoutSubnets (Vpc.push s nb l)) (layoutSubnets l ++ [s]).
Proof.
  unfold Vpc.push, layoutSubnets.
  apply Permutation_trans with (s :: Vpc.publics l ++ Vpc.privates l ++ Vpc.isolateds l);
    [|apply Permutation_cons_append].
  destruct (Subnet.subnetType s); cbn; symmetry.
  - rewrite <- app_assoc. cbn. apply Permutation_middle.
  - rewrite <- app_assoc. cbn.
    rewrite !(app_assoc (Vpc.publics l)).
    apply Permutation_middle.
  - rewrite !app_assoc. apply Permutation_cons_append.
Qed.

Lemma push_builder s nb l : Vpc.networkBuilder (Vpc.push s nb l) = nb.
Proof. unfold Vpc.push. now destruct (Subnet.subnetType s). Qed.

Lemma createSubnetResources_sound cfgs cfg zones :
  In cfg cfgs ->
  forall index l l',
    Vpc.createSubnetResources cfg zones index l = Ok l' ->
    LayoutSound cfgs l ->
    LayoutSound cfgs l' /\
    NetworkBuilder.networkCidr (Vpc.networkBuilder l')
    = NetworkBuilder.networkCidr (Vpc.networkBuilder l).
Proof.
  intros Hcfg.
  induction zones as [|zone rest IH]; intros index l l' Hrun Hl; cbn in Hrun.
  - injection Hrun as <-. split; [exact Hl | reflexivity].
  - destruct (NetworkBuilder.addSubnet _ _) as [[b nb]|e] eqn:Hadd; cbn in Hrun;
      [|discriminate].
    destruct Hl as (Halloc & Hperm & Hinst).
    destruct (addSubnet_allocated _ _ _ _ Halloc Hadd) as (Halloc' & Hmask & Hnet & Hcidrs).
    apply IH in Hrun as (Hsound & Hnet').
    + split; [exact Hsound|]. rewrite Hnet', push_builder. exact Hnet.
    + split; [|split].
      * now rewrite push_builder.
      * rewrite push_builder, Hcidrs, push_subnets, map_app.
        now apply Permutation_app_tail.
      * rewrite push_subnets. apply Forall_app. split; [exact Hinst|].
        repeat constructor. unfold instantiates, block. cbn. rewrite Hmask.
        now destruct cfg.
Qed.

Lemma createSubnets_sound cfgs zones :
  forall todo l l',
    incl todo cfgs ->
    Vpc.createSubnets todo zones l = Ok l' ->
    LayoutSound cfgs l ->
    LayoutSound cfgs l' /\
    NetworkBuilder.networkCidr (Vpc.networkBuilder l')
    = NetworkBuilder.networkCidr (Vpc.networkBuilder l).
Proof.
  induction todo as [|cfg rest IH]; intros l l' Hincl Hrun Hl; cbn in Hrun.
  - injection Hrun as <-. split; [exact Hl | reflexivity].
  - destruct (Vpc.createSubnetResources cfg zones 0 l) as [l1|e] eqn:Htier;
      cbn in Hrun; [|discriminate].
    eapply createSubnetResources_sound in Htier as (Hl1 & Hnet1);
      [|apply Hincl; now left|exact Hl].
    apply IH in Hrun as (Hl' & Hnet'); [|intros x Hx; apply Hincl; now right|exact Hl1].
    split; [exact Hl'|]. now rewrite Hnet', Hnet1.
Qed.

Lemma disjoint_sym a b : CidrBlock.disjoint a b -> CidrBlock.disjoint b a.
Proof. unfold CidrBlock.disjoint. tauto. Qed.

Lemma ForallOrdPairs_Permutation {A} (R : A -> A -> Prop) (l l' : list A) :
  (forall a b, R a b -> R b a) ->
  Permutation l l' -> ForallOrdPairs R l -> ForallOrdPairs R l'.
Proof.
  intros Hsym Hperm.
  induction Hperm as [|x l l' Hperm IH|x y l|l l' l'' _ IH1 _ IH2]; intros Hl.
  - exact Hl.
  - inversion Hl as [|? ? Hx Hrest]; subst.
    constructor; [now rewrite <- Hperm | now apply IH].
  - inversion Hl as [|? ? Hy Hrest]; subst.
    inversion Hrest as [|? ? Hx Hrest']; subst.
    inversion Hy as [|? ? Hyx Hyl]; subst.
    repeat constructor; auto.
  - auto.
Qed.

Lemma ForallOrdPairs_map {A B} (f : A -> B) (R : B -> B -> Prop) (l : list A) :
  ForallOrdPairs R (map f l) -> ForallOrdPairs (fun a b => R (f a) (f b)) l.
Proof.
  induction l as [|x l IH]; cbn; intros H; [constructor|].
  inversion H as [|? ? Hx Hl]; subst.
  constructor; [|now apply IH].
  exact (proj1 (List.Forall_map f (R (f x)) l) Hx).
Qed.

End AnyLayout.

(** X6. Whatever the tiers, the zones and the address range, a network
    that is laid out has every subnet made from one of the configured tiers,
    with that tier's name, type and mask, and no two subnets overlap.  When
    the range is written with the first address of its block (the address
    is a multiple of the block's size), every subnet lies inside the range
    as written. *)
Theorem layout_blocks_sound (id : string) (props : ec2.Vpc.Props)
    (zones : list string) (vpc : ec2.Vpc.t)
    (Hcreate : ec2.Vpc.create id props zones = Ok vpc) :
  exists n mask,
    ec2.CidrBlock.parse (ec2.Vpc.cidr props) = Ok (n, mask) /\
    ((mask <= 32)%Z -> (n mod 2 ^ (32 - mask) = 0)%Z ->
     Forall (fun s => (n <= ec2.CidrBlock.minAddress (block s) /\
                       ec2.CidrBlock.maxAddress (block s) <= n + 2 ^ (32 - mask) - 1)%Z)
            (ec2.Vpc.subnets vpc)) /\
    Forall (instantiates (ec2.Vpc.subnetConfiguration props)) (ec2.Vpc.subnets vpc) /\
    ForallOrdPairs (fun a b => ec2.CidrBlock.disjoint (block a) (block b))
                   (ec2.Vpc.subnets vpc).
Proof.
  unfold ec2.Vpc.create, ec2.NetworkBuilder.create, ec2.CidrBlock.ofString in Hcreate.
  destruct (ec2.CidrBlock.parse _) as [[n mask]|e]; cbn in Hcreate; [|discriminate].
  unfold ec2.CidrBlock.checked in Hcreate.
  destruct (ec2.CidrBlock.validAddress _) in Hcreate; cbn in Hcreate; [|discriminate].
  destruct (ec2.Vpc.determineNatGatewayCount _ _ _) as [count|e]; cbn in Hcreate;
    [|discriminate].
  destruct (ec2.Vpc.createSubnets _ _ _) as [l|e] eqn:Hl; cbn in Hcreate; [|discriminate].
  injection Hcreate as <-.
  exists n, mask. split; [reflexivity|].
  eapply createSubnets_sound in Hl as ((Halloc & Hperm & Hinst) & Hnet).
  - cbn in Hnet. destruct Halloc as (_ & Hblocks & Hdisj).
    rewrite Hnet in Hblocks.
    change (ec2.Vpc.subnets _) with (layoutSubnets l).
    split; [|split].
    + intros Hmask Haligned.
      apply (proj1 (List.Forall_map block
                      (fun b => (n <= ec2.CidrBlock.minAddress b /\
                                 ec2.CidrBlock.maxAddress b <= n + 2 ^ (32 - mask) - 1)%Z)
                      (layoutSubnets l))).
      eapply Permutation_Forall; [symmetry; exact Hperm|].
      eapply Forall_impl; [exact Hblocks|]. cbn.
      intros b ((Hlo & Hhi) & _).
      assert (Hs : (0 < ec2.CidrBlock.calculateNetsize mask)%Z)
        by (unfold ec2.CidrBlock.calculateNetsize; apply Z.pow_pos_nonneg; lia).
      destruct (ofNumber_bounds n mask Hs) as (Hmin & Hmax & Hmul).
      unfold ec2.CidrBlock.calculateNetsize in *.
      set (size := (2 ^ (32 - mask))%Z) in *.
      pose proof (Z.mod_eq n size ltac:(lia)) as Hn.
      assert (Hfirst : ec2.CidrBlock.minAddress (ec2.CidrBlock.ofNumber n mask) = n).
      { rewrite Hmul.
        replace (n + size - 1)%Z with (n / size * size + (size - 1))%Z by lia.
        rewrite Z.div_add_l by lia.
        rewrite (Z.div_small (size - 1) size) by lia.
        lia. }
      lia.
    + exact Hinst.
    + apply ForallOrdPairs_map.
      eapply ForallOrdPairs_Permutation;
        [exact disjoint_sym | symmetry; exact Hperm | exact Hdisj].
  - intros x Hx. exact Hx.
  - repeat split; cbn; try constructor. lia.
Qed.

Lemma layout_blocks_sound_witness :
  ec2.Vpc.create "Net" mixedProps ["a"; "b"; "c"] = Ok mixedVpc /\
  exists n mask,
    ec2.CidrBlock.parse (ec2.Vpc.cidr mixedProps) = Ok (n, mask) /\
    ((mask <= 32)%Z -> (n mod 2 ^ (32 - mask) = 0)%Z ->
     Forall (fun s => (n <= ec2.CidrBlock.minAddress (block s) /\
                       ec2.CidrBlock.maxAddress (block s) <= n + 2 ^ (32 - mask) - 1)%Z)
            (ec2.Vpc.subnets mixedVpc)) /\
    Forall (instantiates (ec2.Vpc.subnetConfiguration mixedProps)) (ec2.Vpc.subnets mixedVpc) /\
    ForallOrdPairs (fun a b => ec2.CidrBlock.disjoint (block a) (block b))
                   (ec2.Vpc.subnets mixedVpc).
Proof.
  split; [vm_compute; reflexivity|].
  apply (layout_blocks_sound "Net" mixedProps ["a"; "b"; "c"] mixedVpc).
  vm_compute; reflexivity.
Defined.

(** The range of [mixedProps] is written with its block's first address, so
    the guarded part of the statement above applies to it. *)
Example mixed_range_aligned :
  ec2.CidrBlock.parse (ec2.Vpc.cidr mixedProps) = Ok (2886729728, 22)%Z /\
  (22 <= 32)%Z /\ (2886729728 mod 2 ^ (32 - 22) = 0)%Z.
Proof. vm_compute. repeat split; discriminate. Qed.

Section Replication.

Import ec2.

Lemma push_tier ty s nb l :
  layoutTier ty (Vpc.push s nb l)
  = layoutTier ty l ++ (if decide (Subnet.subnetType s = ty) then [s] else []).
Proof.
  unfold Vpc.push.
  destruct (Subnet.subnetType s), ty; cbn; try reflexivity;
    now rewrite app_nil_r.
Qed.

Lemma createSubnetResources_tier cfg zones ty :
  forall index l l',
    Vpc.createSubnetResources cfg zones index l = Ok l' ->
    map placement (layoutTier ty l')
    = map placement (layoutTier ty l) ++ replicas ty zones cfg.
Proof.
  induction zones as [|zone rest IH]; intros index l l' Hrun; cbn in Hrun.
  - injection Hrun as <-. unfold replicas.
    destruct (decide _); cbn; now rewrite app_nil_r.
  - destruct (NetworkBuilder.addSubnet _ _) as [[b nb]|e]; cbn in Hrun; [|discriminate].
    apply IH in Hrun. rewrite Hrun, push_tier, map_app, <- app_assoc.
    f_equal. unfold replicas. cbn.
    destruct (decide _); reflexivity.
Qed.

Lemma createSubnets_tier cfgs zones ty :
  forall l l',
    Vpc.createSubnets cfgs zones l = Ok l' ->
    map placement (layoutTier ty l')
    = map placement (layoutTier ty l) ++ flat_map (replicas ty zones) cfgs.
Proof.
  induction cfgs as [|cfg rest IH]; intros l l' Hrun; cbn in Hrun.
  - injection Hrun as <-. cbn. now rewrite app_nil_r.
  - destruct (Vpc.createSubnetResources cfg zones 0 l) as [l1|e] eqn:Htier;
      cbn in Hrun; [|discriminate].
    apply IH in Hrun. rewrite Hrun.
    rewrite (createSubnetResources_tier _ _ ty _ _ _ Htier).
    cbn. now rewrite <- app_assoc.
Qed.

(** The zones a network uses and the placement of its subnets. *)
Lemma Vpc_create_placements id props zones vpc :
  Vpc.create id props zones = Ok vpc ->
  Vpc.availabilityZones vpc = firstn (Vpc.maxAzs props) zones /\
  forall ty,
    map placement (tierOf ty vpc)
    = flat_map (replicas ty (Vpc.availabilityZones vpc)) (Vpc.subnetConfiguration props).
Proof.
  intros Hcreate. unfold Vpc.create in Hcreate.
  destruct (NetworkBuilder.create _) as [nb|e]; cbn in Hcreate; [|discriminate].
  destruct (Vpc.determineNatGatewayCount _ _ _) as [count|e]; cbn in Hcreate;
    [|discriminate].
  destruct (Vpc.createSubnets _ _ _) as [l|e] eqn:Hl; cbn in Hcreate; [|discriminate].
  injection Hcreate as <-.
  split; [reflexivity|].
  intros ty.
  pose proof (createSubnets_tier _ _ ty _ _ Hl) as Htier.
  destruct ty; exact Htier.
Qed.

End Replication.

(** X7. Whatever the configuration, a network that is laid out uses the
    first [maxAzs] zones on offer, and the subnets of each type are, tier
    after tier in the order of the configuration, one subnet per used zone
    in the zones' order. *)
Theorem layout_replicates_tiers (id : string) (props : ec2.Vpc.Props)
    (zones : list string) (vpc : ec2.Vpc.t)
    (Hcreate : ec2.Vpc.create id props zones = Ok vpc) :
  ec2.Vpc.availabilityZones vpc = firstn (ec2.Vpc.maxAzs props) zones /\
  forall ty,
    map placement (tierOf ty vpc)
    = flat_map (replicas ty (ec2.Vpc.availabilityZones vpc))
               (ec2.Vpc.subnetConfiguration props).
Proof. exact (Vpc_create_placements id props zones vpc Hcreate). Qed.

Lemma layout_replicates_tiers_witness :
  ec2.Vpc.create "Net" mixedProps ["a"; "b"; "c"] = Ok mixedVpc /\
  ec2.Vpc.availabilityZones mixedVpc = firstn (ec2.Vpc.maxAzs mixedProps) ["a"; "b"; "c"] /\
  forall ty,
    map placement (tierOf ty mixedVpc)
    = flat_map (replicas ty (ec2.Vpc.availabilityZones mixedVpc))
               (ec2.Vpc.subnetConfiguration mixedProps).
Proof.
  split; [vm_compute; reflexivity|].
  apply (layout_replicates_tiers "Net" mixedProps ["a"; "b"; "c"] mixedVpc).
  vm_compute; reflexivity.
Defined.

(** ** The Network Topology Unit, whatever zones are on offer *)

(** X8. The Network Topology Unit's constructor throws when no zone is on
    offer, since the outbound-only tier would be left without a gateway.
    Whenever it returns, a zone was on offer and it has declared the one
    network, on the first two zones on offer, with as many subnets in each
    of the three tiers as zones are used: two, or one when a single zone is
    on offer. *)
Theorem vpc_stack_outcome (env : Env) :
  (availabilityZones env = [] ->
   VpcStack.constructor env [] = Throw PrivateSubnetsWithoutNatGateways) /\
  (forall vpc sc,
     VpcStack.constructor env [] = Ok (vpc, sc) ->
     availabilityZones env <> [] /\
     sc = [("Vpc", Vpc VpcStack.vpcProps vpc)] /\
     ec2.Vpc.availabilityZones vpc = firstn 2 (availabilityZones env) /\
     length (ec2.Vpc.publicSubnets vpc) = Nat.min 2 (length (availabilityZones env)) /\
     length (ec2.Vpc.privateSubnets vpc) = Nat.min 2 (length (availabilityZones env)) /\
     length (ec2.Vpc.isolatedSubnets vpc) = Nat.min 2 (length (availabilityZones env))).
Proof.
  destruct env as [zones fl]. cbn [availabilityZones].
  split; [intros ->; vm_compute; reflexivity|].
  intros vpc sc Hrun.
  unfold VpcStack.constructor, Construct.andThen, Construct.lift in Hrun.
  cbn [availabilityZones] in Hrun.
  destruct (ec2.Vpc.create "Vpc" VpcStack.vpcProps zones) as [v|e] eqn:Hcreate;
    [|discriminate].
  cbn in Hrun. injection Hrun as <- <-.
  pose proof (proj1 (Vpc_create_placements _ _ _ _ Hcreate)) as Hzones.
  destruct zones as [|a [|b rest]]; vm_compute in Hcreate;
    [discriminate| |]; injection Hcreate as <-;
    (split; [discriminate|]); repeat split.
Qed.

(** ** One subnet per zone *)

Section OnePerAz.

Import ec2.

Lemma seen_In z seen : existsb (String.eqb z) seen = true <-> In z seen.
Proof.
  rewrite existsb_exists. split.
  - intros (x & Hin & Heq). apply String.eqb_eq in Heq. now subst.
  - intros Hin. exists z. split; [exact Hin | apply String.eqb_refl].
Qed.

(** [retainOnePerAz] keeps one subnet of every zone it has not seen, and
    no two of the same zone. *)
Lemma retainOnePerAz_zones subnets :
  forall azsSeen,
    NoDup (map Subnet.availabilityZone (retainOnePerAz azsSeen subnets)) /\
    forall z, In z (map Subnet.availabilityZone (retainOnePerAz azsSeen subnets)) <->
              In z (map Subnet.availabilityZone subnets) /\ ~ In z azsSeen.
Proof.
  induction subnets as [|s rest IH]; intros azsSeen; cbn.
  - split; [constructor | tauto].
  - destruct (existsb _ azsSeen) eqn:Hseen.
    + apply seen_In in Hseen.
      destruct (IH azsSeen) as (Hnd & Hz). split; [exact Hnd|].
      intros z. rewrite Hz. split; [tauto|].
      intros ([<-|Hin] & Hnot); tauto.
    + assert (Hnew : ~ In (Subnet.availabilityZone s) azsSeen).
      { intros Hin. apply seen_In in Hin. congruence. }
      destruct (IH (Subnet.availabilityZone s :: azsSeen)) as (Hnd & Hz).
      cbn. split.
      * apply NoDup_cons. split; [|exact Hnd].
        rewrite list_elem_of_In, Hz. cbn. tauto.
      * intros z. rewrite Hz. cbn.
        destruct (String.eqb_spec (Subnet.availabilityZone s) z) as [Heq|Hne];
          [rewrite <- Heq; intuition congruence | intuition congruence].
Qed.

Lemma selectSubnets_onePerAz vpc ty subnets :
  selectSubnets vpc (SubnetSelection.make (Some ty) (Some true)) = Ok subnets ->
  subnets = retainOnePerAz [] (tierOf ty vpc).
Proof.
  unfold selectSubnets, selectSubnetObjectsByType; cbn.
  replace (match ty with
           | PUBLIC => Vpc.publicSubnets vpc
           | PRIVATE_WITH_NAT => Vpc.privateSubnets vpc
           | PRIVATE_ISOLATED => Vpc.isolatedSubnets vpc
           end) with (tierOf ty vpc) by now destruct ty.
  destruct (tierOf ty vpc); cbn; [discriminate|].
  now intros [= <-].
Qed.

End OnePerAz.

(** X9. The database's subnet group holds exactly one subnet for each zone
    the network uses: no two of its subnets lie in the same zone, and its
    zones are the first two zones on offer. *)
Theorem subnet_group_one_per_zone (env : Env) (app : App)
    (Hrun : main env = Ok app) :
  exists group,
    resource app "DatabaseStack" "SubnetGroup" = Some (SubnetGroup group) /\
    NoDup (map ec2.Subnet.availabilityZone (rds.SubnetGroup.vpcSubnets group)) /\
    forall z, In z (map ec2.Subnet.availabilityZone (rds.SubnetGroup.vpcSubnets group)) <->
              In z (firstn 2 (availabilityZones env)).
Proof.
  run_main Hrun.
  eexists. split; [reflexivity|]. cbn.
  apply selectSubnets_onePerAz in Hsel. subst subnets.
  destruct (Vpc_create_placements _ _ _ _ Hvpc) as (Hzones & Htiers).
  specialize (Htiers ec2.PRIVATE_ISOLATED).
  cbn in Hzones, Htiers. rewrite Hzones in Htiers.
  change (let (zones, _) := env in zones) with (availabilityZones env) in Htiers.
  cbn [tierOf].
  assert (Haz : map ec2.Subnet.availabilityZone (ec2.Vpc.isolatedSubnets vpc)
                = firstn 2 (availabilityZones env)).
  { change ec2.Subnet.availabilityZone with (fun s => snd (placement s)).
    rewrite <- (map_map placement snd), Htiers.
    unfold replicas. cbn.
    repeat (destruct (decide _) as [?|?]; try discriminate; try congruence).
    cbn. rewrite app_nil_r.
    generalize (firstn 2 (availabilityZones env)) as zs.
    induction zs as [|z zs IH]; cbn; [reflexivity | now rewrite IH]. }
  destruct (retainOnePerAz_zones (ec2.Vpc.isolatedSubnets vpc) []) as (Hnd & Hz).
  split; [exact Hnd|].
  intros z. rewrite Hz, Haz. cbn. tauto.
Qed.

Lemma subnet_group_one_per_zone_witness :
  main sampleEnv = Ok sampleApp /\
  exists group,
    resource sampleApp "DatabaseStack" "SubnetGroup" = Some (SubnetGroup group) /\
    NoDup (map ec2.Subnet.availabilityZone (rds.SubnetGroup.vpcSubnets group)) /\
    forall z, In z (map ec2.Subnet.availabilityZone (rds.SubnetGroup.vpcSubnets group)) <->
              In z (firstn 2 (availabilityZones sampleEnv)).
Proof.
  split; [vm_compute; reflexivity|].
  apply (subnet_group_one_per_zone sampleEnv sampleApp).
  vm_compute; reflexivity.
Defined.

(** ** Credentials *)

(** X10. One set of excluded characters governs every password of the
    cluster: each rotation job excludes exactly the characters the
    administrative credential's generation policy excludes. *)
Theorem rotation_excludes_match_policy (env : Env) (app : App)
    (Hrun : main env = Ok app) :
  exists admin policy,
    resource app "DatabaseStack" "DbAdminSecret" = Some (Secret admin) /\
    secretsmanager.Secret.generateSecretString admin = Some policy /\
    rotations app <> [] /\
    Forall (fun job => secretsmanager.SecretRotation.excludeCharacters (snd job)
                       = secretsmanager.SecretStringGenerator.excludeCharacters policy)
           (rotations app).
Proof.
  run_main Hrun.
  do 2 eexists. repeat split; try reflexivity.
  - cbn. discriminate.
  - cbn. repeat constructor.
Qed.

Lemma rotation_excludes_match_policy_witness :
  main sampleEnv = Ok sampleApp /\
  exists admin policy,
    resource sampleApp "DatabaseStack" "DbAdminSecret" = Some (Secret admin) /\
    secretsmanager.Secret.generateSecretString admin = Some policy /\
    rotations sampleApp <> [] /\
    Forall (fun job => secretsmanager.SecretRotation.excludeCharacters (snd job)
                       = secretsmanager.SecretStringGenerator.excludeCharacters policy)
           (rotations sampleApp).
Proof.
  split; [vm_compute; reflexivity|].
  apply (rotation_excludes_match_policy sampleEnv sampleApp).
  vm_compute; reflexivity.
Defined.

(** X11. The administrative node's role may read the credentials of this
    run and nothing else: the statements of the policy declared for it
    allow the two read actions on exactly the secrets the run declares, the
    role attaches that policy beside the provider's systems-management one,
    and the node assumes that role. *)
Theorem role_reads_only_declared_secrets (env : Env) (app : App)
    (Hrun : main env = Ok app) :
  exists policy role client,
    resource app "DatabaseStack" "GetSecretValueIamPolicy" = Some (ManagedPolicy policy) /\
    resource app "DatabaseStack" "DbClientIamRole" = Some (Role role) /\
    resource app "DatabaseStack" "DbClient" = Some (Instance client) /\
    ec2.Instance.role client = "DbClientIamRole" /\
    iam.Role.assumedBy role = iam.ServicePrincipal.make "ec2.amazonaws.com" /\
    iam.Role.managedPolicies role
    = [ iam.ManagedPolicy.fromAwsManagedPolicyName "AmazonSSMManagedInstanceCore";
        iam.ManagedPolicy.declared "GetSecretValueIamPolicy" ] /\
    flat_map iam.PolicyStatement.resources (iam.ManagedPolicy.statements policy)
    = map fst (secrets app) /\
    Forall (fun st => iam.PolicyStatement.effect st = iam.ALLOW /\
                      iam.PolicyStatement.actions st
                      = [ "secretsmanager:GetSecretValue";
                          "secretsmanager:ListSecretVersionIds" ])
           (iam.ManagedPolicy.statements policy).
Proof.
  run_main Hrun.
  do 3 eexists. repeat split; try reflexivity.
  cbn. repeat constructor.
Qed.

Lemma role_reads_only_declared_secrets_witness :
  main sampleEnv = Ok sampleApp /\
  exists policy role client,
    resource sampleApp "DatabaseStack" "GetSecretValueIamPolicy" = Some (ManagedPolicy policy) /\
    resource sampleApp "DatabaseStack" "DbClientIamRole" = Some (Role role) /\
    resource sampleApp "DatabaseStack" "DbClient" = Some (Instance client) /\
    ec2.Instance.role client = "DbClientIamRole" /\
    iam.Role.assumedBy role = iam.ServicePrincipal.make "ec2.amazonaws.com" /\
    iam.Role.managedPolicies role
    = [ iam.ManagedPolicy.fromAwsManagedPolicyName "AmazonSSMManagedInstanceCore";
        iam.ManagedPolicy.declared "GetSecretValueIamPolicy" ] /\
    flat_map iam.PolicyStatement.resources (iam.ManagedPolicy.statements policy)
    = map fst (secrets sampleApp) /\
    Forall (fun st => iam.PolicyStatement.effect st = iam.ALLOW /\
                      iam.PolicyStatement.actions st
                      = [ "secretsmanager:GetSecretValue";
                          "secretsmanager:ListSecretVersionIds" ])
           (iam.ManagedPolicy.statements policy).
Proof.
  split; [vm_compute; reflexivity|].
  apply (role_reads_only_declared_secrets sampleEnv sampleApp).
  vm_compute; reflexivity.
Defined.

(** ** Tags *)

(** X12. The entry point sets one tag, Environment = Production, and no
    other on each of the two stacks of a run. *)
Theorem every_stack_tagged (env : Env) (app : App)
    (Hrun : main env = Ok app) :
  map fst app = ["VpcStack"; "DatabaseStack"] /\
  Forall (fun st => Stack.tags (snd st) = [("Environment", "Production")]) app.
Proof.
  run_main Hrun.
  split; [reflexivity|].
  cbn. repeat constructor.
Qed.

Lemma every_stack_tagged_witness :
  main sampleEnv = Ok sampleApp /\
  map fst sampleApp = ["VpcStack"; "DatabaseStack"] /\
  Forall (fun st => Stack.tags (snd st) = [("Environment", "Production")]) sampleApp.
Proof.
  split; [vm_compute; reflexivity|].
  apply (every_stack_tagged sampleEnv sampleApp).
  vm_compute; reflexivity.
Defined.

(** ** The Data Cluster Unit on any network handle *)

Lemma data_cluster_unit_placement_witness :
  Vpc_tiered (DatabaseStack.vpc mixedUnitProps) /\
  DatabaseStack.constructor sampleEnv mixedUnitProps [] = Ok (tt, mixedUnitScope) /\
  exists group multi single,
    Construct.tryFindChild "SubnetGroup" mixedUnitScope = Some (SubnetGroup group) /\
    Forall (fun s => ec2.Subnet.subnetType s = ec2.PRIVATE_ISOLATED)
           (rds.SubnetGroup.vpcSubnets group) /\
    Construct.tryFindChild "DbAdminSecretRotationMultiUser" mixedUnitScope
    = Some (SecretRotation multi) /\
    Construct.tryFindChild "DbRotationPasswordUserSecretRotationSingleUser" mixedUnitScope
    = Some (SecretRotation single) /\
    exists subnets,
      secretsmanager.SecretRotation.vpcSubnets multi = Some subnets /\
      secretsmanager.SecretRotation.vpcSubnets single = Some subnets /\
      Forall (fun s => ec2.Subnet.subnetType s = ec2.PRIVATE_WITH_NAT) subnets.
Proof.
  assert (Htiered : Vpc_tiered (DatabaseStack.vpc mixedUnitProps)).
  { apply (Vpc_create_tiered "Net" mixedProps ["a"; "b"; "c"]). vm_compute; reflexivity. }
  split; [exact Htiered|].
  split; [vm_compute; reflexivity|].
  apply (data_cluster_unit_placement sampleEnv mixedUnitProps mixedUnitScope Htiered).
  vm_compute; reflexivity.
Defined.

(** X14. The Data Cluster Unit needs an isolated and an outbound-only
    subnet and the boot script, and nothing more: given a network handle
    lacking either tier it throws at the subnet selection, without the
    script it throws at the read, and otherwise it returns its scope. *)
Theorem data_cluster_unit_outcome (env : Env) (props : DatabaseStack.Props) :
  match ec2.Vpc.isolatedSubnets (DatabaseStack.vpc props),
        ec2.Vpc.privateSubnets (DatabaseStack.vpc props),
        files env bootScriptPath with
  | [], _, _ | _ :: _, [], _ =>
      DatabaseStack.constructor env props [] = Throw NoSubnetGroups
  | _ :: _, _ :: _, None =>
      DatabaseStack.constructor env props [] = Throw (NoSuchFile bootScriptPath)
  | _ :: _, _ :: _, Some _ =>
      exists sc, DatabaseStack.constructor env props [] = Ok (tt, sc)
  end.
Proof.
  destruct props as [[id zones pub priv iso] protection].
  destruct env as [offered fl].
  cbn [DatabaseStack.vpc ec2.Vpc.isolatedSubnets ec2.Vpc.privateSubnets files].
  destruct iso as [|i iso]; [vm_compute; reflexivity|].
  destruct priv as [|p priv]; [vm_compute; reflexivity|].
  destruct (fl bootScriptPath) as [text|] eqn:Hfile.
  - cbv -[ec2.retainOnePerAz] in Hfile |- *. rewrite Hfile. eexists. reflexivity.
  - cbv -[ec2.retainOnePerAz] in Hfile |- *. rewrite Hfile. reflexivity.
Qed.
